(** * Business Reputation Insights Analyzer: the review pipeline

    A shallow embedding of [preprocess.py], [analysis_pipeline.py] and
    [data_fetcher.py].  Python strings are sequences of Unicode code points,
    Python values are a small tagged union, a [DataFrame] is an ordered list
    of named columns, exceptions are an error monad, and the external
    services (the HTTP client, the sentiment model, the chat model, the JSON
    decoder) are functions handed to the code that calls them. *)

From Stdlib Require Import ZArith NArith String Ascii DecimalString.
From stdpp Require Import base option list gmap.

Set Warnings "-register-all".
Local Open Scope N_scope.

(** ** Python strings *)

Module PyStr.

(** A [str] is a sequence of code points. *)
Definition pystr := list N.

(** An ASCII literal of the source. *)
Definition lit (s : string) : pystr :=
  (fun a => N_of_ascii a) <$> list_ascii_of_string s.

(** The double quote, written by code point. *)
Definition dq : pystr := [34].

(** [str.isspace] on one code point.  The [\s] class of [re] on [str]
    patterns and [str.strip()] both use this set. *)
Definition is_space (c : N) : bool :=
  ((9 <=? c) && (c <=? 13)) || ((28 <=? c) && (c <=? 32))
  || (c =? 0x85) || (c =? 0xA0) || (c =? 0x1680)
  || ((0x2000 <=? c) && (c <=? 0x200A))
  || (c =? 0x2028) || (c =? 0x2029) || (c =? 0x202F) || (c =? 0x205F)
  || (c =? 0x3000).

Definition is_upper (c : N) : bool := (65 <=? c) && (c <=? 90).
Definition is_lower (c : N) : bool := (97 <=? c) && (c <=? 122).
Definition is_digit (c : N) : bool := (48 <=? c) && (c <=? 57).

(** The punctuation kept by the character class [\.,!?'] . *)
Definition is_kept_punct (c : N) : bool :=
  (c =? 46) || (c =? 44) || (c =? 33) || (c =? 63) || (c =? 39).

(** Lowercasing of one code point on the ASCII range: [A-Z] move to [a-z],
    every other ASCII character is its own lowercase. *)
Definition lower_char (c : N) : N := if is_upper c then c + 32 else c.

(** [str.lower()] on the strings [clean_text] applies it to: after the
    character filter only ASCII letters, digits, the kept punctuation and
    whitespace remain, and on those [str.lower()] is [lower_char] on each
    code point.  Where the source lowercases arbitrary text (the label of
    the sentiment model), the lowercasing function is a parameter. *)
Definition lower (s : pystr) : pystr := lower_char <$> s.

(** [s.startswith(p)]. *)
Fixpoint starts_with (p s : pystr) : bool :=
  match p, s with
  | [], _ => true
  | _ :: _, [] => false
  | a :: p', b :: s' => (a =? b) && starts_with p' s'
  end.

(** [p in s]: [p] occurs in [s] as a contiguous substring. *)
Fixpoint contains (p s : pystr) : bool :=
  starts_with p s ||
  match s with
  | [] => false
  | _ :: s' => contains p s'
  end.

(** Leading characters of [s] satisfying [f], and what follows them. *)
Fixpoint take_while (f : N → bool) (s : pystr) : pystr :=
  match s with
  | c :: s' => if f c then c :: take_while f s' else []
  | [] => []
  end.

Fixpoint drop_while (f : N → bool) (s : pystr) : pystr :=
  match s with
  | c :: s' => if f c then drop_while f s' else s
  | [] => []
  end.

(** [str.strip()] with no argument: whitespace is removed at both ends.
    [rstrip] keeps a character when something is kept after it, or when
    it is not whitespace. *)
Definition lstrip (s : pystr) : pystr := drop_while is_space s.
Fixpoint rstrip (s : pystr) : pystr :=
  match s with
  | [] => []
  | c :: s' =>
      match rstrip s' with
      | [] => if is_space c then [] else [c]
      | r => c :: r
      end
  end.
Definition strip (s : pystr) : pystr := rstrip (lstrip s).

(** [sep.join(parts)]. *)
Fixpoint join (sep : pystr) (parts : list pystr) : pystr :=
  match parts with
  | [] => []
  | [p] => p
  | p :: rest => p ++ sep ++ join sep rest
  end.

End PyStr.
Import PyStr.

(** ** Regular-expression substitution *)

Module Re.

(** A compiled pattern, as the scanner of [re.sub] uses it: given the text
    from the current position on, the length of the match that starts
    there, if there is one.  None of the patterns of this program looks
    behind the current position, and none matches the empty string. *)
Definition matcher := pystr → option nat.

(** [re.sub(pattern, repl, s)] from a position that still has [skip]
    characters of the last match to consume.  Scanning goes left to right;
    where the pattern matches [S n] characters, [repl] is emitted and those
    characters are consumed; elsewhere the character is copied. *)
Fixpoint sub_from (m : matcher) (repl : pystr) (skip : nat) (s : pystr) : pystr :=
  match s with
  | [] => []
  | c :: s' =>
      match skip with
      | S k => sub_from m repl k s'
      | O =>
          match m s with
          | Some (S n) => repl ++ sub_from m repl n s'
          | _ => c :: sub_from m repl 0 s'
          end
      end
  end.

Definition sub (m : matcher) (repl s : pystr) : pystr := sub_from m repl 0 s.

(** Length of the longest run of [\S] (resp. [\s]) at the start of [s]:
    what a greedy [\S+] (resp. [\s+]) takes. *)
Definition nonspace_run (s : pystr) : nat := length (take_while (λ c, negb (is_space c)) s).
Definition space_run (s : pystr) : nat := length (take_while is_space s).

(** A literal prefix followed by [\S+]. *)
Definition prefix_then_nonspace (p : pystr) (s : pystr) : option nat :=
  if starts_with p s then
    match nonspace_run (drop (length p) s) with
    | O => None
    | S n => Some (length p + S n)%nat
    end
  else None.

(** [r"http\S+|www\.\S+"]: the first alternative is tried first. *)
Definition url_pattern : matcher := λ s,
  match prefix_then_nonspace (lit "http") s with
  | Some n => Some n
  | None => prefix_then_nonspace (lit "www.") s
  end.

(** Membership in the class [A-Za-z0-9\s\.,!?']. *)
Definition in_kept_class (c : N) : bool :=
  is_upper c || is_lower c || is_digit c || is_space c || is_kept_punct c.

(** [r"[^A-Za-z0-9\s\.,!?']"]: one character outside the class. *)
Definition unwanted_pattern : matcher := λ s,
  match s with
  | c :: _ => if in_kept_class c then None else Some 1%nat
  | [] => None
  end.

(** [r"\s+"]. *)
Definition spaces_pattern : matcher := λ s,
  match space_run s with
  | O => None
  | n => Some n
  end.

End Re.

(** ** Python values and exceptions *)

Module Py.

(** The values that flow through the pipeline: what [json] decodes to and
    what a DataFrame cell holds.  A [float] is carried as its IEEE-754
    binary64 bit pattern; no float arithmetic is done here.  A [dict] keeps
    its insertion order; its keys are unique. *)
Inductive value :=
  | VNone
  | VBool (b : bool)
  | VInt (z : Z)
  | VFloat (bits : Z)
  | VStr (s : pystr)
  | VList (items : list value)
  | VDict (entries : list (value * value)).

(** The exceptions ([Exception] subclasses) that this code raises or meets. *)
Inductive exn :=
  | ValueError (msg : pystr)
  | KeyError (key : pystr)
  | AttributeError
  | TypeError
  | HTTPError (status : Z)
  | OtherException (msg : pystr).

(** Outcome of a call that may raise. *)
Inductive result (A : Type) :=
  | Ok (a : A)
  | Raise (e : exn).
Arguments Ok {A} a.
Arguments Raise {A} e.

#[global] Instance result_ret : MRet result := λ A a, Ok a.
#[global] Instance result_bind : MBind result := λ A B k r,
  match r with
  | Ok a => k a
  | Raise e => Raise e
  end.

(** [for x in xs: ys.append(f(x))], stopping at the first exception. *)
Fixpoint for_each {A B} (f : A → result B) (xs : list A) : result (list B) :=
  match xs with
  | [] => Ok []
  | x :: xs' => y ← f x; ys ← for_each f xs'; Ok (y :: ys)
  end.

Definition nan : value := VFloat 0x7FF8000000000000.

(** [bool(v)]: the truth value that [not v] and [a or b] test. *)
Definition truthy (v : value) : bool :=
  match v with
  | VNone => false
  | VBool b => b
  | VInt z => negb (z =? 0)%Z
  | VFloat bits => negb (bits mod 2 ^ 63 =? 0)%Z
  | VStr s => negb (bool_decide (s = []))
  | VList l => negb (bool_decide (length l = 0%nat))
  | VDict d => negb (bool_decide (length d = 0%nat))
  end.

(** Equality of a key with a [str]: only an equal [str] matches. *)
Definition is_str (k : pystr) (v : value) : bool :=
  match v with
  | VStr s => bool_decide (s = k)
  | _ => false
  end.

(** [d.get(key, default)] on the entries of a [dict], for a [str] key. *)
Fixpoint dict_get (d : list (value * value)) (key : pystr) (default : value) : value :=
  match d with
  | [] => default
  | (k, v) :: d' => if is_str key k then v else dict_get d' key default
  end.

Definition has_key (d : list (value * value)) (key : pystr) : bool :=
  existsb (λ kv, is_str key kv.1) d.

(** [obj.get(key, default)] on any object: only a [dict] has the method. *)
Definition get (obj : value) (key : pystr) (default : value) : result value :=
  match obj with
  | VDict d => Ok (dict_get d key default)
  | _ => Raise AttributeError
  end.

(** The items a [for] loop draws from an object. *)
Definition iterate (obj : value) : result (list value) :=
  match obj with
  | VList l => Ok l
  | VStr s => Ok ((λ c, VStr [c]) <$> s)
  | VDict d => Ok (fst <$> d)
  | _ => Raise TypeError
  end.

(** Decimal text of an [int]. *)
Definition str_of_int (z : Z) : pystr := lit (NilZero.string_of_int (Z.to_int z)).

(** [str(v)], which is also what an f-string field shows.  The text of a
    float, a list or a dict is left to [repr_rest]. *)
Definition str (repr_rest : value → pystr) (v : value) : pystr :=
  match v with
  | VNone => lit "None"
  | VBool true => lit "True"
  | VBool false => lit "False"
  | VInt z => str_of_int z
  | VStr s => s
  | _ => repr_rest v
  end.

(** Structural equality of values, used to group equal cells. *)
Fixpoint value_eqb (a b : value) : bool :=
  match a, b with
  | VNone, VNone => true
  | VBool x, VBool y => bool_decide (x = y)
  | VInt x, VInt y => (x =? y)%Z
  | VFloat x, VFloat y => (x =? y)%Z
  | VStr x, VStr y => bool_decide (x = y)
  | VList xs, VList ys =>
      (fix go (xs ys : list value) : bool :=
         match xs, ys with
         | [], [] => true
         | x :: xs', y :: ys' => value_eqb x y && go xs' ys'
         | _, _ => false
         end) xs ys
  | VDict xs, VDict ys =>
      (fix go (xs ys : list (value * value)) : bool :=
         match xs, ys with
         | [], [] => true
         | (k, x) :: xs', (l, y) :: ys' => value_eqb k l && value_eqb x y && go xs' ys'
         | _, _ => false
         end) xs ys
  | _, _ => false
  end.

End Py.
Import Py.

(** ** DataFrames *)

Module Frame.

(** A [pandas.DataFrame]: the length of its index and its columns in
    order, each with one cell per row. *)
Record DataFrame := {
  nrows : nat;
  columns : list (pystr * list value);
}.

(** [pd.DataFrame(columns=names)]. *)
Definition empty_frame (names : list pystr) : DataFrame :=
  {| nrows := 0; columns := (λ n, (n, [])) <$> names |}.

Definition column_names (d : DataFrame) : list pystr := fst <$> columns d.

(** [name in df.columns]. *)
Definition has_column (name : pystr) (d : DataFrame) : bool :=
  bool_decide (name ∈ column_names d).

Fixpoint find_column (name : pystr) (cols : list (pystr * list value)) : option (list value) :=
  match cols with
  | [] => None
  | (n, cells) :: cols' => if bool_decide (n = name) then Some cells else find_column name cols'
  end.

(** [df[name]]. *)
Definition getitem (name : pystr) (d : DataFrame) : result (list value) :=
  match find_column name (columns d) with
  | Some cells => Ok cells
  | None => Raise (KeyError name)
  end.

(** Replace the column called [name] where it stands, or add it last. *)
Fixpoint put_column (name : pystr) (cells : list value) (cols : list (pystr * list value))
  : list (pystr * list value) :=
  match cols with
  | [] => [(name, cells)]
  | (n, old) :: cols' =>
      if bool_decide (n = name) then (n, cells) :: cols'
      else (n, old) :: put_column name cells cols'
  end.

Definition length_mismatch (n_values n_index : nat) : exn :=
  ValueError (lit "Length of values (" ++ str_of_int (Z.of_nat n_values)
              ++ lit ") does not match length of index (" ++ str_of_int (Z.of_nat n_index)
              ++ lit ")").

(** [df[name] = cells] for a list, or a Series on the index of [df].  The
    lengths must agree, except that a frame with an empty index takes its
    index from the cells, its other columns being filled with NaN. *)
Definition setitem (name : pystr) (cells : list value) (d : DataFrame) : result DataFrame :=
  if bool_decide (length cells = nrows d) then
    Ok {| nrows := nrows d; columns := put_column name cells (columns d) |}
  else if bool_decide (nrows d = 0%nat) then
    Ok {| nrows := length cells;
          columns := put_column name cells
                       ((λ c, (c.1, replicate (length cells) nan)) <$> columns d) |}
  else Raise (length_mismatch (length cells) (nrows d)).

(** [df.head(n)]: the first [n] rows, or all but the last [-n] for [n < 0]. *)
Definition head (n : Z) (d : DataFrame) : DataFrame :=
  let k := if (0 <=? n)%Z then Z.to_nat n else (nrows d - Z.to_nat (- n))%nat in
  {| nrows := Nat.min k (nrows d); columns := (λ c, (c.1, take k c.2)) <$> columns d |}.

(** [pd.DataFrame(rows)] for rows that are dicts with the keys [names], in
    that order.  pandas stores every column under the dtype that it infers
    from the cells of that column: [infer_dtype] gives the cells as they
    are stored (a column of ints and [None] is stored as floats, with NaN
    for [None]). *)
Definition of_rows (infer_dtype : list value → list value)
    (names : list pystr) (rows : list (list (value * value))) : DataFrame :=
  {| nrows := length rows;
     columns := (λ n, (n, infer_dtype ((λ row, dict_get row n nan) <$> rows))) <$> names |}.

(** A missing cell: [None] or a NaN. *)
Definition is_missing (v : value) : bool :=
  match v with
  | VNone => true
  | VFloat bits => ((bits / 2 ^ 52) mod 2 ^ 11 =? 2047)%Z && negb (bits mod 2 ^ 52 =? 0)%Z
  | _ => false
  end.

(** Number of cells of [cells] equal to [v]. *)
Definition count_of (v : value) (cells : list value) : nat :=
  length (filter (λ c, value_eqb v c = true) cells).

(** The distinct values of [cells], each at its first appearance. *)
Fixpoint distinct (cells : list value) : list value :=
  match cells with
  | [] => []
  | c :: cells' => c :: filter (λ x, value_eqb c x = false) (distinct cells')
  end.

(** Insertion of a count pair into a list sorted by decreasing count,
    before the pairs with the same count. *)
Fixpoint insert_by_count (p : value * nat) (l : list (value * nat)) : list (value * nat) :=
  match l with
  | [] => [p]
  | q :: l' => if (q.2 <=? p.2)%nat then p :: l else q :: insert_by_count p l'
  end.

(** [series.value_counts().to_dict()] on a column of strings, which is
    what the sentiment column holds: missing cells are left out, the most
    frequent value comes first, equal counts keep the order of first
    appearance.  Cells are told apart by [value_eqb]; that pandas counts
    equal numbers of different types (1, 1.0, True) under one key, and
    raises on a cell that cannot be hashed, is not part of this model. *)
Definition value_counts (cells : list value) : list (value * value) :=
  let present := filter (λ c, is_missing c = false) cells in
  let counted := (λ v, (v, count_of v present)) <$> distinct present in
  (λ p, (p.1, VInt (Z.of_nat p.2))) <$> foldr insert_by_count [] counted.

End Frame.
Import Frame.

(** ** Objects: DataFrames held by reference *)

Module Heap.

(** A reference to a DataFrame object. *)
Abbreviation ref := nat.

(** The live DataFrame objects, by identity. *)
Abbreviation heap := (gmap nat DataFrame).

(** A computation that reads and updates objects and may raise; the
    objects survive the exception. *)
Definition M (A : Type) : Type := heap → result A * heap.

Definition ret {A} (a : A) : M A := λ h, (Ok a, h).
Definition bind {A B} (m : M A) (k : A → M B) : M B := λ h,
  match m h with
  | (Ok a, h') => k a h'
  | (Raise e, h') => (Raise e, h')
  end.

Definition throw {A} (e : exn) : M A := λ h, (Raise e, h).
Definition lift {A} (r : result A) : M A := λ h, (r, h).

Notation "x <- m ;; k" := (bind m (λ x, k))
  (at level 61, m at level 60, k at level 200, right associativity, only parsing).

(** The object behind a reference.  A Python name always denotes a live
    object; the other branch makes the function total. *)
Definition deref (df : ref) : M DataFrame := λ h,
  match h !! df with
  | Some d => (Ok d, h)
  | None => (Raise (OtherException (lit "no such object")), h)
  end.

(** [df.copy()]: a new object with the same index and cells. *)
Definition copy (df : ref) : M ref :=
  d <- deref df;;
  λ h, let r := fresh (dom h) in (Ok r, <[r := d]> h).

(** [df[name]] and [df[name] = cells] on the object behind [df]. *)
Definition get_column (df : ref) (name : pystr) : M (list value) :=
  d <- deref df;; lift (getitem name d).

Definition set_column (df : ref) (name : pystr) (cells : list value) : M unit :=
  d <- deref df;;
  d' <- lift (setitem name cells d);;
  λ h, (Ok (), <[df := d']> h).

End Heap.
Import Heap.

Notation "x <- m ;; k" := (Heap.bind m (λ x, k))
  (at level 61, m at level 60, k at level 200, right associativity, only parsing).

(** ** preprocess.py *)

Module Preprocess.

(** The body of [clean_text] once [text] is known to be a [str]. *)
Definition clean_str (text : pystr) : pystr :=
  let text := Re.sub Re.url_pattern [] text in
  let text := Re.sub Re.unwanted_pattern (lit " ") text in
  let text := lower text in
  strip (Re.sub Re.spaces_pattern (lit " ") text).

(** [clean_text(text)]: anything that is not a [str] gives [""]. *)
Definition clean_text (text : value) : pystr :=
  match text with
  | VStr s => clean_str s
  | _ => []
  end.

Section WithRepr.
Variable repr_rest : value → pystr.

(** What [series.astype(str)] makes of a missing cell ([None], NaN): its
    text ("None", "nan") in pandas 1 and 2, a missing value again in
    pandas 3. *)
Variable astype_missing : value → value.

(** One cell of [series.astype(str)]: a cell that is not missing becomes
    [str(cell)]. *)
Definition astype_cell (v : value) : value :=
  if is_missing v then astype_missing v else VStr (str repr_rest v).

(** [series.astype(str)]. *)
Definition astype_str (cells : list value) : list value :=
  astype_cell <$> cells.

(** [preprocess_reviews(df)].  The parameter is rebound to a copy, and
    the column is set on that copy. *)
Definition preprocess_reviews (df : ref) : M ref :=
  df <- copy df;;
  d <- deref df;;
  if negb (has_column (lit "text") d) then
    throw (ValueError (lit "Input DataFrame must have a 'text' column"))
  else
    text <- get_column df (lit "text");;
    _ <- set_column df (lit "clean_text") ((λ v, VStr (clean_text v)) <$> astype_str text);;
    ret df.
End WithRepr.

End Preprocess.
Import Preprocess.

(** ** analysis_pipeline.py *)

Module Analysis.

(** One result of the sentiment model: [{"label": ..., "score": ...}]. *)
Record classification := {
  label : pystr;
  score : Z;
}.

(** The arguments of [client.chat.completions.create]. *)
Record chat_request := {
  model : pystr;
  messages : list (pystr * pystr);
  temperature : Z;
}.

Definition nl : pystr := [10].

(** The f-string of [extract_themes]. *)
Definition themes_prompt (joined_text : pystr) : pystr :=
  join nl
    [ [];
      lit "You are analyzing customer reviews for a local business.";
      [];
      lit "Reviews:";
      joined_text;
      [];
      lit "1. Identify the main recurring positive themes (e.g., 'friendly staff', 'good ambience').";
      lit "2. Identify the main recurring negative themes (e.g., 'slow service', 'high prices').";
      [];
      lit "Return your answer strictly in JSON with the following structure:";
      lit "{";
      lit "  " ++ dq ++ lit "positive" ++ dq ++ lit ": [" ++ dq ++ lit "theme1" ++ dq
        ++ lit ", " ++ dq ++ lit "theme2" ++ dq ++ lit ", ...],";
      lit "  " ++ dq ++ lit "negative" ++ dq ++ lit ": [" ++ dq ++ lit "theme1" ++ dq
        ++ lit ", " ++ dq ++ lit "theme2" ++ dq ++ lit ", ...]";
      lit "}";
      [] ].

(** The dict built in the [except] branch of [extract_themes]. *)
Definition fallback_themes (raw : pystr) : list (value * value) :=
  [ (VStr (lit "positive"), VList []);
    (VStr (lit "negative"), VList []);
    (VStr (lit "raw"), VStr raw) ].

(** [sep.join(items)] on cells: every item must be a [str]. *)
Definition join_cells (sep : pystr) (items : list value) : result pystr :=
  parts ← for_each (λ v, match v with VStr s => Ok s | _ => Raise TypeError end) items;
  Ok (join sep parts).

Section WithServices.
(** [str.lower] on arbitrary text. *)
Variable str_lower : pystr → pystr.
(** The Hugging Face pipeline: a batch of texts in, one result each out. *)
Variable _sentiment_pipeline : list value → result (list classification).
(** The chat API: the content of the first choice, or an exception. *)
Variable chat_completions_create : chat_request → result value.
Variable OPENAI_MODEL : pystr.
(** [json.loads]. *)
Variable json_loads : pystr → result value.
(** The text of floats, lists and dicts in a prompt. *)
Variable repr_rest : value → pystr.
(** [float(series.mean())]. *)
Variable series_mean : list value → result Z.

(** [_call_llm(prompt, temperature)]; the default temperature is 0.3. *)
Definition _call_llm (prompt : pystr) (temperature : Z) : result pystr :=
  content ← chat_completions_create
    {| model := OPENAI_MODEL;
       messages :=
         [ (lit "system", lit "You are an expert business analyst for local businesses.");
           (lit "user", prompt) ];
       temperature := temperature |};
  match content with
  | VStr s => Ok (strip s)
  | _ => Raise AttributeError
  end.

Definition default_temperature : Z := 0x3FD3333333333333.

(** The label mapping inside the loop of [add_sentiment]. *)
Definition map_label (raw_label : pystr) : pystr :=
  let label := str_lower raw_label in
  if contains (lit "pos") label then lit "positive"
  else if contains (lit "neg") label then lit "negative"
  else lit "neutral".

(** [add_sentiment(df)]. *)
Definition add_sentiment (df : ref) : M ref :=
  df <- copy df;;
  texts <- get_column df (lit "clean_text");;
  sentiments <- lift (_sentiment_pipeline texts);;
  let labels := (λ result, VStr (map_label (label result))) <$> sentiments in
  let scores := (λ result, VFloat (score result)) <$> sentiments in
  _ <- set_column df (lit "sentiment") labels;;
  _ <- set_column df (lit "sentiment_score") scores;;
  ret df.

(** [extract_themes(df, max_reviews)]; the default bound is 50. *)
Definition extract_themes (df : DataFrame) (max_reviews : Z) : result (list (value * value)) :=
  let sample_df := head max_reviews df in
  texts ← getitem (lit "clean_text") sample_df;
  joined_text ← join_cells nl texts;
  raw ← _call_llm (themes_prompt joined_text) default_temperature;
  Ok match json_loads raw with
     | Ok (VDict themes) => themes
     | Ok _ => fallback_themes raw
     | Raise _ => fallback_themes raw
     end.

(** The f-string of [summarize_reviews]. *)
Definition summary_prompt (joined_text : pystr) : pystr :=
  join nl
    [ [];
      lit "Summarize the following customer reviews for a local business.";
      lit "Focus on:";
      lit "- Overall customer satisfaction";
      lit "- Main strengths";
      lit "- Main weaknesses";
      lit "- Important patterns or trends";
      [];
      lit "Reviews:";
      joined_text;
      [] ].

(** [summarize_reviews(df, max_reviews)]; the default bound is 100. *)
Definition summarize_reviews (df : DataFrame) (max_reviews : Z) : result pystr :=
  let sample_df := head max_reviews df in
  texts ← getitem (lit "clean_text") sample_df;
  joined_text ← join_cells nl texts;
  _call_llm (summary_prompt joined_text) default_temperature.

(** The f-string of [generate_recommendations]. *)
Definition recommendations_prompt (total_reviews : nat) (sentiment_counts : value)
    (themes : list (value * value)) : pystr :=
  join nl
    [ [];
      lit "You are an expert operations consultant.";
      [];
      lit "A local business has " ++ str repr_rest (VInt (Z.of_nat total_reviews))
        ++ lit " reviews on Google Maps.";
      [];
      lit "Sentiment distribution:";
      str repr_rest sentiment_counts;
      [];
      lit "Positive themes:";
      str repr_rest (dict_get themes (lit "positive") (VList []));
      [];
      lit "Negative themes:";
      str repr_rest (dict_get themes (lit "negative") (VList []));
      [];
      lit "Based on this information:";
      lit "- Suggest 5" ++ [0x2013] ++ lit "10 highly actionable operational improvements.";
      lit "- Be specific (e.g., 'add one more staff member during evening peak hours', not just 'improve service').";
      lit "- Group them under short headings if possible.";
      [];
      lit "Respond in bullet points.";
      [] ].

(** [generate_recommendations(df, themes)]. *)
Definition generate_recommendations (df : DataFrame) (themes : list (value * value))
  : result pystr :=
  let total_reviews := nrows df in
  sentiment ← getitem (lit "sentiment") df;
  let sentiment_counts := VDict (value_counts sentiment) in
  _call_llm (recommendations_prompt total_reviews sentiment_counts themes) default_temperature.

(** [compute_basic_stats(df)]. *)
Definition compute_basic_stats (df : DataFrame) : result (list (value * value)) :=
  let total_reviews := VInt (Z.of_nat (nrows df)) in
  avg_rating ←
    (if has_column (lit "rating") df then
       rating ← getitem (lit "rating") df;
       mean ← series_mean rating;
       Ok (VFloat mean)
     else Ok VNone);
  sentiment ← getitem (lit "sentiment") df;
  Ok [ (VStr (lit "total_reviews"), total_reviews);
       (VStr (lit "avg_rating"), avg_rating);
       (VStr (lit "sentiment_counts"), VDict (value_counts sentiment)) ].
End WithServices.

End Analysis.
Import Analysis.

(** ** data_fetcher.py *)

Module Fetcher.

Definition SERPAPI_ENDPOINT : pystr := lit "https://serpapi.com/search.json".
Definition DEFAULT_HL : pystr := lit "en".

(** What [requests.get(url, params=params)] sends, and what it returns:
    the status code and the outcome of [r.json()]. *)
Record request := {
  url : pystr;
  params : list (pystr * pystr);
}.

Record response := {
  status_code : Z;
  json : result value;
}.

(** [r.raise_for_status()]. *)
Definition raise_for_status (r : response) : result unit :=
  if (400 <=? status_code r)%Z && (status_code r <? 600)%Z
  then Raise (HTTPError (status_code r)) else Ok ().

Definition review_columns : list pystr :=
  [lit "author"; lit "rating"; lit "date"; lit "text"].

(** The dict appended to [rows] for one review. *)
Definition review_row (rev : value) : result (list (value * value)) :=
  user ← get rev (lit "user") (VStr []);
  rating ← get rev (lit "rating") VNone;
  date ← get rev (lit "date") (VStr []);
  snippet ← get rev (lit "snippet") (VStr []);
  text ← (if truthy snippet then Ok snippet else get rev (lit "review") (VStr []));
  Ok [ (VStr (lit "author"), user);
       (VStr (lit "rating"), rating);
       (VStr (lit "date"), date);
       (VStr (lit "text"), text) ].

Section WithNetwork.
(** The dtype inference of [pd.DataFrame] on the cells of one column. *)
Variable infer_dtype : list value → list value.
(** The key of [config.py], read from the environment. *)
Variable SERPAPI_API_KEY : pystr.
(** The provider behind [requests.get]. *)
Variable http_get : request → result response.

(** [fetch_google_maps_reviews(place_id, api_key, hl)].  [sent] is the
    list of requests that have left the process so far; the function
    returns it with its own request added, when it makes one. *)
Definition fetch_google_maps_reviews (place_id : pystr) (api_key : option pystr) (hl : pystr)
    (sent : list request) : result DataFrame * list request :=
  let api_key := match api_key with None => SERPAPI_API_KEY | Some k => k end in
  if negb (truthy (VStr api_key)) then
    (Raise (ValueError (lit "SERPAPI_API_KEY is not set. Please configure it in .env or config.py")),
     sent)
  else
    let params :=
      [ (lit "engine", lit "google_maps_reviews");
        (lit "place_id", place_id);
        (lit "hl", hl);
        (lit "api_key", api_key) ] in
    let query := {| url := SERPAPI_ENDPOINT; params := params |} in
    (r ← http_get query;
     _ ← raise_for_status r;
     data ← json r;
     reviews ← get data (lit "reviews") (VList []);
     if negb (truthy reviews) then Ok (empty_frame review_columns)
     else
       items ← iterate reviews;
       rows ← for_each review_row items;
       Ok (of_rows infer_dtype review_columns rows),
     sent ++ [query]).
End WithNetwork.

End Fetcher.
Import Fetcher.

(** ** Predicates used in the statements *)

Module Shape.

(** The pattern matches nowhere in [s]. *)
Fixpoint no_match (m : Re.matcher) (s : pystr) : bool :=
  match s with
  | [] => true
  | _ :: s' => bool_decide (m s = None) && no_match m s'
  end.

(** A character that cleaned text may hold: a lowercase letter, a digit,
    kept punctuation or whitespace. *)
Definition is_clean_char (c : N) : bool :=
  Re.in_kept_class c && negb (is_upper c).

(** Every whitespace character of [s] is one U+0020 that is followed by a
    character that is not whitespace; at the very end of [s] it is allowed
    when [at_end] is set. *)
Fixpoint spaced (at_end : bool) (s : pystr) : bool :=
  match s with
  | [] => true
  | c :: s' =>
      (if is_space c then
         (c =? 32) && match s' with d :: _ => negb (is_space d) | [] => at_end end
       else true)
      && spaced at_end s'
  end.

(** [s] does not begin with whitespace. *)
Definition starts_clean (s : pystr) : bool :=
  match s with
  | c :: _ => negb (is_space c)
  | [] => true
  end.

End Shape.
Import Shape.

(** ** Concrete inputs and services for the closed examples *)

Module Samples.

(** The input of the example scenario: the emoji is U+1F60A. *)
Definition scenario_text : pystr :=
  lit "Check http://x.co AMAZING!! " ++ [0x1F60A] ++ lit "  service".

(** pandas 3: a missing cell is still missing after [astype(str)]. *)
Definition sample_missing (v : value) : value := nan.

(** A rendering of compound values; the theorems hold for every one. *)
Definition sample_repr (v : value) : pystr :=
  match v with
  | VList [] => lit "[]"
  | VDict [] => lit "{}"
  | _ => lit "..."
  end.

(** Two fetched reviews; the text of the second is a number. *)
Definition raw_frame : DataFrame :=
  {| nrows := 2;
     columns :=
       [ (lit "author", [VStr (lit "Ann"); VStr (lit "Bob")]);
         (lit "rating", [VInt 5; VInt 2]);
         (lit "date", [VStr (lit "a week ago"); VStr (lit "a month ago")]);
         (lit "text", [VStr (lit "Great FOOD, see www.x.co"); VInt 5]) ] |}.

(** The same reviews after the preprocessor. *)
Definition cleaned_frame : DataFrame :=
  {| nrows := 2;
     columns := columns raw_frame
       ++ [ (lit "clean_text", [VStr (lit "great food, see"); VStr (lit "5")]) ] |}.

(** Three reviews: the text of the second is missing, that of the third
    is a number. *)
Definition gappy_frame : DataFrame :=
  {| nrows := 3;
     columns := [ (lit "text", [VStr (lit "Nice PLACE"); VNone; VInt 5]) ] |}.

Definition raw_heap : gmap nat DataFrame := {[ 0%nat := raw_frame ]}.
Definition cleaned_heap : gmap nat DataFrame := {[ 0%nat := cleaned_frame ]}.

(** A sentiment model that answers POSITIVE on texts with "great",
    NEGATIVE on texts with "bad" and LABEL_1 on the rest, with score 0.99. *)
Definition sample_pipeline (texts : list value) : result (list classification) :=
  Ok ((λ t,
         let answer :=
           match t with
           | VStr s =>
               if contains (lit "great") s then lit "POSITIVE"
               else if contains (lit "bad") s then lit "NEGATIVE"
               else lit "LABEL_1"
           | _ => lit "LABEL_1"
           end in
         {| label := answer; score := 0x3FEFAE147AE147AE |}) <$> texts).

(** A chat service that always answers [reply]. *)
Definition sample_chat (reply : value) : chat_request → result value := λ _, Ok reply.

(** A decoder that knows the texts of the empty object and the empty
    array, and rejects the rest. *)
Definition sample_json_loads (s : pystr) : result value :=
  if bool_decide (s = lit "{}") then Ok (VDict [])
  else if bool_decide (s = lit "[]") then Ok (VList [])
  else Raise (ValueError (lit "Expecting value")).

Definition sample_mean (cells : list value) : result Z := Ok 0x7FF8000000000000%Z.

(** The binary64 pattern of an integer of at most 53 bits. *)
Definition float_of_int (z : Z) : Z :=
  if (z =? 0)%Z then 0%Z
  else
    let e := Z.log2 (Z.abs z) in
    ((if (z <? 0)%Z then 2 ^ 63 else 0) + (e + 1023) * 2 ^ 52
     + (Z.abs z * 2 ^ (52 - e) - 2 ^ 52))%Z.

(** The inference of pandas on the columns of the examples: a column of
    ints with [None] among them is stored as floats, [None] as NaN; every
    other column of the examples is stored as it is. *)
Definition sample_infer (cells : list value) : list value :=
  if forallb (λ c, match c with VInt _ | VNone => true | _ => false end) cells
     && existsb (λ c, match c with VInt _ => true | _ => false end) cells
     && existsb (λ c, match c with VNone => true | _ => false end) cells
  then (λ c, match c with VInt z => VFloat (float_of_int z) | _ => nan end) <$> cells
  else cells.

(** A provider that answers every request with status 200 and [data]. *)
Definition sample_http (data : value) : request → result response :=
  λ _, Ok {| status_code := 200; json := Ok data |}.

End Samples.
Import Samples.

(** ** app.py: the session and the handlers of its buttons *)

Module App.

(** What a slot of [st.session_state] holds: [None], a DataFrame, or
    another value (a themes dict, a text, [True]). *)
Inductive slot :=
  | Unset
  | Frame (d : DataFrame)
  | Plain (v : value).

(** [st.session_state]. *)
Abbreviation session := (gmap (list N) slot).

(** The name of a slot. *)
Definition key (name : string) : list N := lit name.

Definition SESSION_KEYS : list (list N) :=
  [ key "df_raw"; key "df_analyzed";
    key "themes"; key "summary"; key "recs";
    key "csv_uploaded_once";
    key "df_A_raw"; key "df_B_raw";
    key "A_processed"; key "B_processed";
    key "A_themes"; key "B_themes";
    key "A_summary"; key "B_summary";
    key "A_recs"; key "B_recs";
    key "compared" ].

(** The loop under "Session Initialization". *)
Definition init_session (st : session) : session :=
  foldl (λ st k, match st !! k with Some _ => st | None => <[k := Unset]> st end)
        st SESSION_KEYS.

Definition single_keys : list (list N) :=
  [key "df_raw"; key "df_analyzed"; key "themes"; key "summary"; key "recs"].

Definition competitor_keys : list (list N) :=
  [ key "df_A_raw"; key "df_B_raw"; key "A_processed"; key "B_processed";
    key "A_themes"; key "B_themes"; key "A_summary"; key "B_summary";
    key "A_recs"; key "B_recs"; key "compared" ].

(** [reset_single()] and [reset_competitor()]. *)
Definition reset_single (st : session) : session :=
  foldl (λ st key, <[key := Unset]> st) st single_keys.

Definition reset_competitor (st : session) : session :=
  foldl (λ st key, <[key := Unset]> st) st competitor_keys.

(** What the page shows after a handler ran. *)
Inductive notice :=
  | ShowError (msg : pystr)
  | ShowWarning (msg : pystr)
  | ShowSuccess (msg : pystr).

(** The session, the requests sent so far and the notices shown so far. *)
Record world := {
  state : session;
  sent : list request;
  notices : list notice;
}.

(** [df.empty]: no rows or no columns. *)
Definition frame_empty (d : DataFrame) : bool :=
  bool_decide (nrows d = 0%nat) || bool_decide (length (columns d) = 0%nat).

(** [x or None] for a text input. *)
Definition or_none (x : pystr) : option pystr :=
  if truthy (VStr x) then Some x else None.

(** [obj[key]] for a [str] key. *)
Definition subscript (obj : value) (key : pystr) : result value :=
  match obj with
  | VDict d => if has_key d key then Ok (dict_get d key VNone) else Raise (KeyError key)
  | _ => Raise TypeError
  end.

(** The f-string of the actionability rating. *)
Definition scoring_prompt (recs : pystr) : pystr :=
  join nl
    [ [];
      lit "Rate these recommendations for actionability (1" ++ [0x2013] ++ lit "10).";
      lit "Return JSON: { " ++ dq ++ lit "score" ++ dq ++ lit ": number, "
        ++ dq ++ lit "reason" ++ dq ++ lit ": " ++ dq ++ lit "..." ++ dq ++ lit " }";
      recs;
      [] ].

(** The dict of the bare [except] of the rating. *)
Definition failed_score : value :=
  VDict [ (VStr (lit "score"), VStr (lit "N/A")); (VStr (lit "reason"), VStr (lit "Failed")) ].

Section WithServices.
Variable infer_dtype : list value → list value.
Variable SERPAPI_API_KEY : pystr.
Variable http_get : request → result response.
(** [str(e)] in the error notices. *)
Variable str_of_exn : exn → pystr.
Variable chat_completions_create : chat_request → result value.
Variable OPENAI_MODEL : pystr.
Variable json_loads : pystr → result value.

(** The body of [if st.sidebar.button("Fetch Reviews")], with the two text
    inputs of the sidebar. *)
Definition on_fetch_reviews (place_id serpapi_key : pystr) (w : world) : world :=
  if negb (truthy (VStr place_id)) then
    {| state := state w; sent := sent w;
       notices := notices w ++ [ShowError (lit "Please enter a place_id.")] |}
  else
    let (outcome, sent') :=
      fetch_google_maps_reviews infer_dtype SERPAPI_API_KEY http_get place_id
        (or_none serpapi_key) DEFAULT_HL (sent w) in
    match outcome with
    | Ok df =>
        if frame_empty df then
          {| state := state w; sent := sent';
             notices := notices w ++ [ShowWarning (lit "No reviews found.")] |}
        else
          {| state := <[key "csv_uploaded_once" := Unset]>
                        (<[key "df_raw" := Frame df]> (reset_single (state w)));
             sent := sent';
             notices := notices w
               ++ [ShowSuccess (lit "Fetched " ++ str_of_int (Z.of_nat (nrows df))
                                ++ lit " reviews.")] |}
    | Raise e =>
        {| state := state w; sent := sent';
           notices := notices w ++ [ShowError (lit "Error: " ++ str_of_exn e)] |}
    end.

(** The body of [if st.sidebar.button("Fetch Both")].  Nothing catches an
    exception of a fetch here: it leaves the handler, with the world as it
    is at that point. *)
Definition on_fetch_both (place_A place_B serpapi_key : pystr) (w : world)
  : option exn * world :=
  if negb (truthy (VStr place_A)) || negb (truthy (VStr place_B)) then
    (None, {| state := state w; sent := sent w;
              notices := notices w ++ [ShowError (lit "Enter both Place IDs.")] |})
  else
    let st := reset_competitor (state w) in
    let (outcome_A, sent_A) :=
      fetch_google_maps_reviews infer_dtype SERPAPI_API_KEY http_get place_A
        (or_none serpapi_key) DEFAULT_HL (sent w) in
    match outcome_A with
    | Raise e => (Some e, {| state := st; sent := sent_A; notices := notices w |})
    | Ok df_A =>
        let st := <[key "df_A_raw" := Frame df_A]> st in
        let (outcome_B, sent_B) :=
          fetch_google_maps_reviews infer_dtype SERPAPI_API_KEY http_get place_B
            (or_none serpapi_key) DEFAULT_HL sent_A in
        match outcome_B with
        | Raise e => (Some e, {| state := st; sent := sent_B; notices := notices w |})
        | Ok df_B =>
            (None, {| state := <[key "df_B_raw" := Frame df_B]> st; sent := sent_B;
                      notices := notices w ++ [ShowSuccess (lit "Fetched both businesses!")] |})
        end
    end.

(** The rating of the recommendations: the pair shown by [st.metric] and
    [st.write], or the exception of a subscript. *)
Definition score_recommendations (recs : pystr) : result (value * value) :=
  let eva :=
    match raw ← _call_llm chat_completions_create OPENAI_MODEL (scoring_prompt recs)
                  default_temperature;
          json_loads raw with
    | Ok v => v
    | Raise _ => failed_score
    end in
  score ← subscript eva (lit "score");
  reason ← subscript eva (lit "reason");
  Ok (score, reason).
End WithServices.

End App.
Import App.

(** ** Further predicates *)

Module Props.

(** A character of cleaned text, spelled out: a lowercase ASCII letter, a
    digit, one of [.,!?'] or the space U+0020. *)
Definition is_output_char (c : N) : bool :=
  is_lower c || is_digit c || is_kept_punct c || (c =? 32).

(** [s] holds no ASCII capital. *)
Definition no_upper (s : pystr) : bool := forallb (λ c, negb (is_upper c)) s.

(** [s] holds no letter, digit or kept punctuation: only whitespace and
    characters that the filter replaces. *)
Definition no_content (s : pystr) : bool :=
  forallb (λ c, negb (is_upper c || is_lower c || is_digit c || is_kept_punct c)) s.

(** Every column of the frame has one cell per row. *)
Definition well_formed (d : DataFrame) : bool :=
  forallb (λ col, bool_decide (length col.2 = nrows d)) (columns d).

(** The sum of the [int] values of a dict of counts. *)
Definition sum_counts (counts : list (value * value)) : Z :=
  foldr (λ kv acc, match kv.2 with VInt z => (z + acc)%Z | _ => acc end) 0%Z counts.

(** [x] is equal to a cell of [cells]. *)
Definition occurs (x : value) (cells : list value) : bool :=
  existsb (λ c, value_eqb c x) cells.

(** One of the three sentiment labels. *)
Definition is_sentiment (l : pystr) : bool :=
  bool_decide (l = lit "positive") || bool_decide (l = lit "negative")
  || bool_decide (l = lit "neutral").

(** The characters of a run of [\S] at the start of [s]. *)
Definition word_at (s : pystr) : pystr := take_while (λ c, negb (is_space c)) s.

End Props.
Import Props.

(** ** Facts about the string and pattern primitives *)

Lemma sub_from_no_match m repl s :
  no_match m s = true → Re.sub_from m repl 0 s = s.
Proof.
  induction s as [|c s IH]; [done|].
  cbn [no_match]. intros [Hm Hs]%andb_prop.
  apply bool_decide_eq_true in Hm.
  cbn [Re.sub_from]. rewrite Hm. f_equal. by apply IH.
Qed.

Lemma sub_from_Forall (P : N → Prop) m repl k s :
  Forall P repl → Forall P s → Forall P (Re.sub_from m repl k s).
Proof.
  intros Hrepl Hs. revert k.
  induction Hs as [|c s Hc Hs IH]; intros k; [by constructor|].
  cbn [Re.sub_from]. destruct k as [|k]; [|apply IH].
  destruct (m (c :: s)) as [[|n]|].
  - constructor; [done|apply IH].
  - apply Forall_app; split; [done|apply IH].
  - constructor; [done|apply IH].
Qed.

Lemma drop_while_Forall (P : N → Prop) f s :
  Forall P s → Forall P (drop_while f s).
Proof.
  induction 1 as [|c s Hc Hs IH]; [by constructor|].
  cbn. destruct (f c); [done|by constructor].
Qed.

Lemma rstrip_Forall (P : N → Prop) s :
  Forall P s → Forall P (rstrip s).
Proof.
  induction 1 as [|c s Hc Hs IH]; [by constructor|].
  cbn. destruct (rstrip s) as [|d r].
  - destruct (is_space c); by repeat constructor.
  - by constructor.
Qed.

Lemma sub_unwanted_kept k s :
  Forall (λ c, Re.in_kept_class c = true) (Re.sub_from Re.unwanted_pattern (lit " ") k s).
Proof.
  revert k. induction s as [|c s IH]; intros k; [by constructor|].
  cbn [Re.sub_from]. destruct k as [|k]; [|apply IH].
  cbn [Re.unwanted_pattern]. destruct (Re.in_kept_class c) eqn:Hc.
  - constructor; [done|apply IH].
  - cbn. constructor; [done|apply IH].
Qed.

Lemma lower_char_clean c :
  Re.in_kept_class c = true → is_clean_char (lower_char c) = true.
Proof.
  intros Hc. unfold is_clean_char, lower_char.
  destruct (is_upper c) eqn:Hu.
  - unfold is_upper in Hu. apply andb_prop in Hu as [H1%N.leb_le H2%N.leb_le].
    assert (is_lower (c + 32) = true) as Hl.
    { unfold is_lower. apply andb_true_intro. split; apply N.leb_le; lia. }
    assert (is_upper (c + 32) = false) as Hn.
    { unfold is_upper. apply andb_false_intro2, N.leb_gt. lia. }
    unfold Re.in_kept_class. by rewrite Hl, Hn, orb_true_r.
  - by rewrite Hc, Hu.
Qed.

Lemma lower_clean s :
  Forall (λ c, Re.in_kept_class c = true) s → Forall (λ c, is_clean_char c = true) (lower s).
Proof.
  unfold lower. induction 1 as [|c s Hc Hs IH]; cbn; constructor; auto using lower_char_clean.
Qed.

Lemma lower_id s :
  Forall (λ c, is_clean_char c = true) s → lower s = s.
Proof.
  unfold lower. induction 1 as [|c s Hc Hs IH]; [done|].
  cbn. rewrite IH. f_equal. unfold lower_char.
  unfold is_clean_char in Hc. apply andb_prop in Hc as [_ Hu].
  by destruct (is_upper c).
Qed.

Lemma clean_no_unwanted s :
  Forall (λ c, is_clean_char c = true) s → no_match Re.unwanted_pattern s = true.
Proof.
  induction 1 as [|c s Hc Hs IH]; [done|].
  cbn [no_match Re.unwanted_pattern].
  unfold is_clean_char in Hc. apply andb_prop in Hc as [Hk _].
  by rewrite Hk, IH.
Qed.

Lemma space_run_cons c s :
  Re.space_run (c :: s) = if is_space c then S (Re.space_run s) else 0%nat.
Proof. unfold Re.space_run. cbn. by destruct (is_space c). Qed.

Lemma spaces_pattern_cons c s :
  Re.spaces_pattern (c :: s) = if is_space c then Some (S (Re.space_run s)) else None.
Proof. unfold Re.spaces_pattern. rewrite space_run_cons. by destruct (is_space c). Qed.

(** What [re.sub(r"\s+", " ", s)] returns has single spaces only,
    except perhaps one at its end. *)
Lemma sub_spaces_spaced s k :
  k = 0%nat ∨ k = Re.space_run s →
  spaced true (Re.sub_from Re.spaces_pattern (lit " ") k s) = true
  ∧ (k = Re.space_run s → starts_clean (Re.sub_from Re.spaces_pattern (lit " ") k s) = true).
Proof.
  revert k. induction s as [|c s IH]; intros k Hk; [done|].
  rewrite space_run_cons in Hk. rewrite space_run_cons.
  cbn [Re.sub_from]. destruct k as [|k].
  - rewrite spaces_pattern_cons.
    destruct (is_space c) eqn:Hc.
    + destruct (IH (Re.space_run s)) as [H1 H2]; [by right|].
      specialize (H2 eq_refl). split; [|done].
      change (lit " " ++ ?r) with (32 :: r).
      cbn [spaced]. rewrite H1.
      destruct (Re.sub_from _ _ _ s) as [|d r]; [done|].
      cbn in H2. by rewrite H2.
    + destruct (IH 0%nat) as [H1 _]; [by left|].
      split; [|by cbn; rewrite Hc].
      cbn [spaced]. by rewrite Hc, H1.
  - destruct (is_space c) eqn:Hc; [|by destruct Hk].
    destruct Hk as [|Hk]; [done|]. injection Hk as ->.
    destruct (IH (Re.space_run s)) as [H1 H2]; [by right|].
    split; [done|]. intros _. by apply H2.
Qed.

Lemma spaced_tail b c s : spaced b (c :: s) = true → spaced b s = true.
Proof. cbn [spaced]. by intros [_ ?]%andb_prop. Qed.

Lemma lstrip_spaced s :
  spaced true s = true → spaced true (lstrip s) = true ∧ starts_clean (lstrip s) = true.
Proof.
  unfold lstrip. induction s as [|c s IH]; [done|].
  intros Hs. cbn [drop_while]. destruct (is_space c) eqn:Hc.
  - apply IH. by eapply spaced_tail.
  - split; [done|]. cbn. by rewrite Hc.
Qed.

Lemma rstrip_head s :
  match rstrip s with
  | [] => True
  | d :: _ => ∃ s', s = d :: s'
  end.
Proof.
  destruct s as [|c s]; [done|]. cbn.
  destruct (rstrip s); [destruct (is_space c)|]; eauto.
Qed.

Lemma rstrip_spaced s :
  spaced true s = true → spaced false (rstrip s) = true.
Proof.
  induction s as [|c s IH]; [done|].
  intros Hs. pose proof (spaced_tail _ _ _ Hs) as Ht. specialize (IH Ht).
  cbn [rstrip]. pose proof (rstrip_head s) as Hh.
  destruct (rstrip s) as [|d r].
  - destruct (is_space c) eqn:Hc; [done|]. cbn. by rewrite Hc.
  - destruct Hh as [s' ->].
    cbn [spaced] in Hs. apply andb_prop in Hs as [Hs _].
    cbn [spaced]. cbn [spaced] in IH. rewrite IH, Hs. done.
Qed.

Lemma rstrip_starts_clean s :
  starts_clean s = true → starts_clean (rstrip s) = true.
Proof.
  destruct s as [|c s]; [done|]. cbn.
  intros Hc. destruct (rstrip s); [|by cbn].
  destruct (is_space c) eqn:E; cbn; rewrite ?E; done.
Qed.

Lemma sub_spaces_id s :
  spaced false s = true → Re.sub Re.spaces_pattern (lit " ") s = s.
Proof.
  unfold Re.sub. induction s as [|c s IH]; [done|].
  intros Hs. pose proof (spaced_tail _ _ _ Hs) as Ht. specialize (IH Ht).
  cbn [spaced] in Hs. apply andb_prop in Hs as [Hs _].
  cbn [Re.sub_from]. rewrite spaces_pattern_cons.
  destruct (is_space c) eqn:Hc; [|by rewrite IH].
  apply andb_prop in Hs as [->%N.eqb_eq Hd].
  destruct s as [|d s]; [done|].
  rewrite space_run_cons. apply negb_true_iff in Hd. rewrite Hd.
  change (lit " " ++ ?r) with (32 :: r). by rewrite IH.
Qed.

Lemma lstrip_id s : starts_clean s = true → lstrip s = s.
Proof.
  destruct s as [|c s]; [done|]. cbn. intros Hc%negb_true_iff. by rewrite Hc.
Qed.

Lemma rstrip_id s : spaced false s = true → rstrip s = s.
Proof.
  induction s as [|c s IH]; [done|].
  intros Hs. pose proof (spaced_tail _ _ _ Hs) as Ht. specialize (IH Ht).
  cbn [rstrip]. rewrite IH.
  destruct s as [|d s]; [|done].
  cbn in Hs. destruct (is_space c); [|done].
  by rewrite andb_false_r in Hs.
Qed.

(** The shape of every cleaned text. *)
Lemma clean_str_shape s :
  Forall (λ c, is_clean_char c = true) (clean_str s)
  ∧ spaced false (clean_str s) = true
  ∧ starts_clean (clean_str s) = true.
Proof.
  unfold clean_str, strip, Re.sub.
  set (u := lower _).
  assert (Forall (λ c, is_clean_char c = true) u) as Hu
    by apply lower_clean, sub_unwanted_kept.
  destruct (sub_spaces_spaced u 0) as [Hv _]; [by left|].
  destruct (lstrip_spaced _ Hv) as [Hw Hc].
  split; [|split].
  - apply rstrip_Forall, drop_while_Forall, sub_from_Forall; [|done].
    by repeat constructor.
  - by apply rstrip_spaced.
  - by apply rstrip_starts_clean.
Qed.

Lemma sub_from_length m repl k s :
  (length repl ≤ 1)%nat → (length (Re.sub_from m repl k s) ≤ length s)%nat.
Proof.
  intros Hrepl. revert k. induction s as [|c s IH]; intros k; [done|].
  cbn [Re.sub_from]. destruct k as [|k].
  - destruct (m (c :: s)) as [[|n]|]; cbn [length].
    + specialize (IH 0%nat). lia.
    + rewrite length_app. specialize (IH n). lia.
    + specialize (IH 0%nat). lia.
  - specialize (IH k). cbn [length]. lia.
Qed.

(** Deleting the matches of a pattern shortens the text as soon as the
    pattern matches somewhere. *)
Lemma sub_from_shrinks m s :
  (∀ t, m t ≠ Some 0%nat) → no_match m s = false →
  (length (Re.sub_from m [] 0 s) < length s)%nat.
Proof.
  intros Hm. induction s as [|c s IH]; [done|].
  cbn [no_match Re.sub_from]. intros Hs.
  destruct (m (c :: s)) as [[|n]|] eqn:Hc.
  - by destruct (Hm (c :: s)).
  - cbn [app length]. pose proof (sub_from_length m [] n s). cbn in *. lia.
  - rewrite bool_decide_eq_true_2 in Hs by done. cbn in Hs.
    specialize (IH Hs). cbn [length]. lia.
Qed.

Lemma url_pattern_not_empty t : Re.url_pattern t ≠ Some 0%nat.
Proof.
  unfold Re.url_pattern, Re.prefix_then_nonspace.
  repeat (case_match; simplify_eq); done.
Qed.

Lemma drop_while_length f s : (length (drop_while f s) ≤ length s)%nat.
Proof. induction s as [|c s IH]; [done|]. cbn. destruct (f c); cbn; lia. Qed.

Lemma rstrip_length s : (length (rstrip s) ≤ length s)%nat.
Proof.
  induction s as [|c s IH]; [done|]. cbn.
  destruct (rstrip s); [destruct (is_space c)|]; cbn in *; lia.
Qed.

Lemma clean_after_urls_length s :
  (length (strip (Re.sub Re.spaces_pattern (lit " ")
             (lower (Re.sub Re.unwanted_pattern (lit " ") s)))) ≤ length s)%nat.
Proof.
  unfold strip, lstrip, Re.sub.
  etrans; [apply rstrip_length|].
  etrans; [apply drop_while_length|].
  etrans; [by apply sub_from_length|].
  unfold lower. rewrite length_fmap.
  by apply sub_from_length.
Qed.

(** A second cleaning changes a cleaned text only through the URL
    pattern. *)
Lemma clean_str_again s :
  clean_str (clean_str s)
  = strip (Re.sub Re.spaces_pattern (lit " ")
      (lower (Re.sub Re.unwanted_pattern (lit " ")
         (Re.sub Re.url_pattern [] (clean_str s))))).
Proof. reflexivity. Qed.

Lemma clean_str_fixed t :
  Forall (λ c, is_clean_char c = true) t →
  spaced false t = true → starts_clean t = true →
  no_match Re.url_pattern t = true →
  clean_str t = t.
Proof.
  intros Hchars Hsp Hst Hurl. unfold clean_str, Re.sub.
  rewrite (sub_from_no_match _ _ t Hurl).
  rewrite (sub_from_no_match _ _ t (clean_no_unwanted _ Hchars)).
  rewrite (lower_id _ Hchars).
  fold (Re.sub Re.spaces_pattern (lit " ") t). rewrite (sub_spaces_id _ Hsp).
  unfold strip. by rewrite (lstrip_id _ Hst), (rstrip_id _ Hsp).
Qed.

(** ** Text cleaning *)

(** C3, as stated, fails: cleaning "HTTPS" gives "https", and cleaning
    that again removes it as a URL. *)
Lemma clean_text_twice_differs :
  clean_text (VStr (lit "HTTPS")) = lit "https"
  ∧ clean_text (VStr (clean_text (VStr (lit "HTTPS")))) = []
  ∧ clean_text (VStr (clean_text (VStr (lit "HTTPS")))) ≠ clean_text (VStr (lit "HTTPS")).
Proof. vm_compute. repeat split; done. Qed.

(** C3, amended: cleaning a cleaned text returns it unchanged exactly when
    the cleaned text holds no match of the URL pattern (no "http" or
    "www." directly followed by a character that is not whitespace). *)
Theorem clean_text_idempotent_iff (s : pystr) :
  clean_text (VStr (clean_text (VStr s))) = clean_text (VStr s)
  ↔ no_match Re.url_pattern (clean_text (VStr s)) = true.
Proof.
  cbn [clean_text]. split.
  - intros Heq. destruct (no_match Re.url_pattern (clean_str s)) eqn:Hurl; [done|].
    exfalso.
    pose proof (sub_from_shrinks _ _ url_pattern_not_empty Hurl) as Hlt.
    pose proof (clean_after_urls_length (Re.sub Re.url_pattern [] (clean_str s))) as Hle.
    rewrite <- clean_str_again, Heq in Hle. unfold Re.sub in Hle. lia.
  - intros Hurl. destruct (clean_str_shape s) as (Hchars & Hsp & Hst).
    by apply clean_str_fixed.
Qed.

(** Where no URL-like text is left, a second cleaning changes nothing. *)
Example clean_text_scenario_stable :
  clean_text (VStr (clean_text (VStr scenario_text))) = clean_text (VStr scenario_text)
  ∧ no_match Re.url_pattern (clean_text (VStr scenario_text)) = true.
Proof. vm_compute. split; reflexivity. Qed.

(** C4, as stated, fails: the word before the URL is kept. *)
Lemma clean_text_scenario_differs :
  clean_text (VStr scenario_text) ≠ lit "amazing!! service".
Proof. vm_compute. done. Qed.

(** C4, amended: the example scenario cleans to "check amazing!! service". *)
Theorem clean_text_scenario :
  clean_text (VStr scenario_text) = lit "check amazing!! service".
Proof. vm_compute. reflexivity. Qed.

(** ** DataFrames and objects *)

Lemma find_put_same name cells cols :
  find_column name (put_column name cells cols) = Some cells.
Proof.
  induction cols as [|[n old] cols IH]; cbn.
  - by rewrite bool_decide_eq_true_2.
  - destruct (bool_decide (n = name)) eqn:Hn; cbn; by rewrite Hn.
Qed.

Lemma find_put_other name other cells cols :
  name ≠ other →
  find_column name (put_column other cells cols) = find_column name cols.
Proof.
  intros Hne. induction cols as [|[n old] cols IH]; cbn.
  - by rewrite bool_decide_eq_false_2.
  - destruct (bool_decide (n = other)) eqn:Hn; cbn.
    + apply bool_decide_eq_true in Hn as ->.
      by rewrite bool_decide_eq_false_2.
    + by rewrite IH.
Qed.

Lemma has_column_find name d :
  has_column name d = true ↔ is_Some (find_column name (columns d)).
Proof.
  unfold has_column, column_names. rewrite bool_decide_eq_true.
  induction (columns d) as [|[n cells] cols IH]; cbn.
  - split; [by intros ?%elem_of_nil|by intros [? ?]].
  - rewrite elem_of_cons, IH. case_bool_decide as Hn.
    + split; [by eauto|]. intros _. by left.
    + split; [|by right]. intros [->|?]; [by destruct Hn|done].
Qed.

Lemma getitem_has_column name d cells :
  getitem name d = Ok cells → has_column name d = true.
Proof.
  unfold getitem. intros H. apply has_column_find.
  destruct (find_column name (columns d)); [done|discriminate].
Qed.

Lemma fresh_unused (h : gmap nat DataFrame) : h !! fresh (dom h) = None.
Proof. apply not_elem_of_dom, is_fresh. Qed.

(** ** The preprocessor and the sentiment step on objects *)

Lemma bind_run {A B} (m : M A) (k : A → M B) h :
  Heap.bind m k h
  = match m h with
    | (Ok a, h') => k a h'
    | (Raise e, h') => (Raise e, h')
    end.
Proof. reflexivity. Qed.

Lemma copy_run h df d :
  h !! df = Some d → copy df h = (Ok (fresh (dom h)), <[fresh (dom h) := d]> h).
Proof. intros Hd. unfold copy, Heap.bind, deref. by rewrite Hd. Qed.

Lemma copy_dangling h df :
  h !! df = None → copy df h = (Raise (OtherException (lit "no such object")), h).
Proof. intros Hd. unfold copy, Heap.bind, deref. by rewrite Hd. Qed.

Lemma deref_run h df d : h !! df = Some d → deref df h = (Ok d, h).
Proof. intros Hd. unfold deref. by rewrite Hd. Qed.

Lemma get_column_run h df d name :
  h !! df = Some d → get_column df name h = (getitem name d, h).
Proof. intros Hd. unfold get_column, Heap.bind, deref, lift. by rewrite Hd. Qed.

Lemma set_column_run h df d name cells :
  h !! df = Some d →
  set_column df name cells h
  = match setitem name cells d with
    | Ok d' => (Ok (), <[df := d']> h)
    | Raise e => (Raise e, h)
    end.
Proof.
  intros Hd. unfold set_column, Heap.bind, deref, lift. rewrite Hd.
  by destruct (setitem name cells d).
Qed.


Lemma setitem_keeps_column name other cells d d' old :
  name ≠ other → length cells = nrows d →
  setitem other cells d = Ok d' → getitem name d = Ok old → getitem name d' = Ok old.
Proof.
  intros Hne Hlen. unfold setitem, getitem.
  rewrite bool_decide_eq_true_2 by done. intros; simplify_eq.
  cbn [columns]. by rewrite find_put_other.
Qed.

Lemma setitem_same_length name cells d :
  length cells = nrows d →
  setitem name cells d = Ok {| nrows := nrows d; columns := put_column name cells (columns d) |}.
Proof. intros Hlen. unfold setitem. by rewrite bool_decide_eq_true_2. Qed.

Section StepFacts.

Variable repr_rest : value → pystr.
Variable astype_missing : value → value.
Variable str_lower : pystr → pystr.
Variable pipeline : list value → result (list classification).

(** The cells that [preprocess_reviews] computes from the text column. *)
Lemma cleaned_cells text :
  (λ v, VStr (clean_text v)) <$> astype_str repr_rest astype_missing text
  = (λ v, VStr (clean_text (astype_cell repr_rest astype_missing v))) <$> text.
Proof. unfold astype_str. by rewrite <- list_fmap_compose. Qed.

(** [preprocess_reviews] with the object operations carried out. *)
Lemma preprocess_reviews_unfold h df :
  preprocess_reviews repr_rest astype_missing df h
  = match h !! df with
    | None => (Raise (OtherException (lit "no such object")), h)
    | Some d =>
        let h1 := <[fresh (dom h) := d]> h in
        if has_column (lit "text") d then
          match getitem (lit "text") d with
          | Ok text =>
              match setitem (lit "clean_text")
                      ((λ v, VStr (clean_text (astype_cell repr_rest astype_missing v)))
                         <$> text) d with
              | Ok d' => (Ok (fresh (dom h)), <[fresh (dom h) := d']> h)
              | Raise e => (Raise e, h1)
              end
          | Raise e => (Raise e, h1)
          end
        else (Raise (ValueError (lit "Input DataFrame must have a 'text' column")), h1)
    end.
Proof.
  unfold preprocess_reviews.
  destruct (h !! df) as [d|] eqn:Hd.
  2:{ by rewrite bind_run, (copy_dangling _ _ Hd). }
  rewrite bind_run, (copy_run _ _ _ Hd). cbv beta iota zeta.
  assert (<[fresh (dom h) := d]> h !! fresh (dom h) = Some d) as Hr by apply lookup_insert_eq.
  rewrite bind_run, (deref_run _ _ _ Hr). cbv beta iota.
  destruct (has_column (lit "text") d) eqn:Hcol; cbn [negb]; [|done].
  rewrite bind_run, (get_column_run _ _ _ _ Hr).
  destruct (getitem (lit "text") d) as [text|e]; [|done].
  rewrite bind_run, (set_column_run _ _ _ _ _ Hr), cleaned_cells.
  destruct (setitem _ _ d) as [d'|e] eqn:Hset; [|done].
  by rewrite insert_insert_eq.
Qed.

Lemma preprocess_reviews_run h df d text :
  h !! df = Some d → getitem (lit "text") d = Ok text → length text = nrows d →
  preprocess_reviews repr_rest astype_missing df h
  = (Ok (fresh (dom h)),
     <[fresh (dom h) :=
         {| nrows := nrows d;
            columns := put_column (lit "clean_text")
                         ((λ v, VStr (clean_text (astype_cell repr_rest astype_missing v)))
                            <$> text) (columns d) |}]> h).
Proof.
  intros Hd Htext Hlen.
  rewrite preprocess_reviews_unfold, Hd. cbv zeta.
  rewrite (getitem_has_column _ _ _ Htext), Htext.
  by rewrite setitem_same_length by (by rewrite length_fmap).
Qed.

(** [add_sentiment] with the object operations carried out. *)
Lemma add_sentiment_unfold h df :
  add_sentiment str_lower pipeline df h
  = match h !! df with
    | None => (Raise (OtherException (lit "no such object")), h)
    | Some d =>
        let r := fresh (dom h) in
        let h1 := <[r := d]> h in
        match getitem (lit "clean_text") d with
        | Raise e => (Raise e, h1)
        | Ok texts =>
            match pipeline texts with
            | Raise e => (Raise e, h1)
            | Ok sentiments =>
                match setitem (lit "sentiment")
                        ((λ res, VStr (map_label str_lower (label res))) <$> sentiments) d with
                | Raise e => (Raise e, h1)
                | Ok d1 =>
                    match setitem (lit "sentiment_score")
                            ((λ res, VFloat (score res)) <$> sentiments) d1 with
                    | Raise e => (Raise e, <[r := d1]> h)
                    | Ok d2 => (Ok r, <[r := d2]> h)
                    end
                end
            end
        end
    end.
Proof.
  unfold add_sentiment.
  destruct (h !! df) as [d|] eqn:Hd.
  2:{ by rewrite bind_run, (copy_dangling _ _ Hd). }
  rewrite bind_run, (copy_run _ _ _ Hd). cbv beta iota zeta.
  assert (<[fresh (dom h) := d]> h !! fresh (dom h) = Some d) as Hr by apply lookup_insert_eq.
  rewrite bind_run, (get_column_run _ _ _ _ Hr).
  destruct (getitem (lit "clean_text") d) as [texts|e]; [|done].
  rewrite bind_run. unfold lift at 1.
  destruct (pipeline texts) as [sentiments|e]; [|done].
  rewrite bind_run, (set_column_run _ _ _ _ _ Hr).
  destruct (setitem (lit "sentiment") _ d) as [d1|e]; [|done].
  rewrite insert_insert_eq.
  assert (<[fresh (dom h) := d1]> h !! fresh (dom h) = Some d1) as Hr1 by apply lookup_insert_eq.
  rewrite bind_run, (set_column_run _ _ _ _ _ Hr1).
  destruct (setitem (lit "sentiment_score") _ d1) as [d2|e]; [|done].
  by rewrite insert_insert_eq.
Qed.

Lemma add_sentiment_run h df d texts sentiments :
  h !! df = Some d → getitem (lit "clean_text") d = Ok texts →
  pipeline texts = Ok sentiments → length sentiments = nrows d →
  add_sentiment str_lower pipeline df h
  = (Ok (fresh (dom h)),
     <[fresh (dom h) :=
         {| nrows := nrows d;
            columns :=
              put_column (lit "sentiment_score") ((λ res, VFloat (score res)) <$> sentiments)
                (put_column (lit "sentiment")
                   ((λ res, VStr (map_label str_lower (label res))) <$> sentiments)
                   (columns d)) |}]> h).
Proof.
  intros Hd Htexts Hpipe Hlen.
  rewrite add_sentiment_unfold, Hd. cbv zeta. rewrite Htexts, Hpipe.
  rewrite setitem_same_length by (by rewrite length_fmap).
  by rewrite setitem_same_length by (by rewrite length_fmap).
Qed.



End StepFacts.





Lemma starts_with_spec p s : starts_with p s = true ↔ ∃ rest, s = p ++ rest.
Proof.
  revert s. induction p as [|a p IH]; intros s; cbn.
  - split; eauto.
  - destruct s as [|b s].
    + split; [done|]. by intros [? ?].
    + rewrite andb_true_iff, N.eqb_eq, IH. split.
      * intros [-> [rest ->]]. eauto.
      * intros [rest ?]. simplify_eq. eauto.
Qed.

(** [contains p s] holds exactly when [p] is a contiguous part of [s]. *)
Lemma contains_spec p s : contains p s = true ↔ ∃ before after, s = before ++ p ++ after.
Proof.
  induction s as [|c s IH]; cbn [contains]; rewrite orb_true_iff, starts_with_spec.
  - split.
    + intros [[rest H]|?]; [|done]. exists [], rest. done.
    + intros (before & after & H). left.
      destruct before; [|done]. eauto.
  - rewrite IH. split.
    + intros [[rest H]|(before & after & ->)].
      * exists [], rest. done.
      * exists (c :: before), after. done.
    + intros (before & after & H). destruct before as [|b before]; cbn in H.
      * left. eauto.
      * right. simplify_eq. eauto.
Qed.

(** ** The preprocessor *)

(** C5, as stated, fails: the number 5 in the text column is cleaned to
    "5", not to the empty string. *)
Lemma preprocess_number_not_empty :
  ∃ h' d',
    preprocess_reviews sample_repr sample_missing 0%nat raw_heap = (Ok 1%nat, h')
    ∧ h' !! 1%nat = Some d'
    ∧ getitem (lit "text") d' = Ok [VStr (lit "Great FOOD, see www.x.co"); VInt 5]
    ∧ getitem (lit "clean_text") d' = Ok [VStr (lit "great food, see"); VStr (lit "5")]
    ∧ lit "5" ≠ [].
Proof.
  exists (preprocess_reviews sample_repr sample_missing 0%nat raw_heap).2, cleaned_frame.
  vm_compute. repeat split; done.
Qed.

(** C5, amended: [preprocess_reviews] cleans, for every record, the cell
    that [astype(str)] makes of the raw text value.  A value that is not
    missing, a number included, is cleaned from its string form [str(v)]:
    5 gives "5", not the empty string.  A missing value ([None], NaN) gives
    the empty string whenever [astype(str)] leaves it other than a string,
    as pandas 3 does, and the cleaning of its text where [astype(str)]
    turns it into one, as pandas 1 and 2 do. *)
Theorem preprocess_cleans_string_form
    (repr_rest : value → pystr) (astype_missing : value → value)
    (h : gmap nat DataFrame) (df : nat) (d : DataFrame) (text : list value) :
  h !! df = Some d →
  getitem (lit "text") d = Ok text →
  length text = nrows d →
  ∃ r' h' d' cleaned,
    preprocess_reviews repr_rest astype_missing df h = (Ok r', h')
    ∧ h' !! r' = Some d'
    ∧ getitem (lit "clean_text") d' = Ok (VStr <$> cleaned)
    ∧ length cleaned = length text
    ∧ ∀ i v c, text !! i = Some v → cleaned !! i = Some c →
        (is_missing v = false → c = clean_str (str repr_rest v))
        ∧ (is_missing v = true → (∀ s, astype_missing v ≠ VStr s) → c = [])
        ∧ (is_missing v = true → ∀ s, astype_missing v = VStr s → c = clean_str s).
Proof.
  intros Hd Htext Hlen.
  eexists _, _, _, ((λ v, clean_text (astype_cell repr_rest astype_missing v)) <$> text).
  split; [by eapply preprocess_reviews_run|].
  split; [apply lookup_insert_eq|]. split; [|split].
  - unfold getitem. cbn [columns]. rewrite find_put_same.
    by rewrite <- list_fmap_compose.
  - by rewrite length_fmap.
  - intros i v c Hv Hc. rewrite list_lookup_fmap, Hv in Hc. cbn in Hc.
    injection Hc as <-. unfold astype_cell.
    destruct (is_missing v); repeat split; try done.
    + intros _ Hns. destruct (astype_missing v) as [| | | |s| |]; try done.
      by destruct (Hns s).
    + intros _ s ->. done.
Qed.

Lemma preprocess_cleans_string_form_witness :
  ∃ r' h' d' cleaned,
    preprocess_reviews sample_repr sample_missing 0%nat {[ 0%nat := gappy_frame ]} = (Ok r', h')
    ∧ h' !! r' = Some d'
    ∧ getitem (lit "clean_text") d' = Ok (VStr <$> cleaned)
    ∧ length cleaned = 3%nat
    ∧ ∀ i v c,
        [VStr (lit "Nice PLACE"); VNone; VInt 5] !! i = Some v → cleaned !! i = Some c →
        (is_missing v = false → c = clean_str (str sample_repr v))
        ∧ (is_missing v = true → (∀ s, sample_missing v ≠ VStr s) → c = [])
        ∧ (is_missing v = true → ∀ s, sample_missing v = VStr s → c = clean_str s).
Proof.
  apply (preprocess_cleans_string_form sample_repr sample_missing
           {[ 0%nat := gappy_frame ]} 0%nat gappy_frame
           [VStr (lit "Nice PLACE"); VNone; VInt 5]).
  - vm_compute. reflexivity.
  - vm_compute. reflexivity.
  - reflexivity.
Defined.

(** The three reviews of [gappy_frame] under the two behaviours of
    [astype(str)]: the missing text is cleaned to the empty string where it
    stays missing, and to "none" where it becomes the text "None". *)
Example preprocess_gappy_frame :
  (∃ h' d',
     preprocess_reviews sample_repr sample_missing 0%nat {[ 0%nat := gappy_frame ]}
     = (Ok 1%nat, h')
     ∧ h' !! 1%nat = Some d'
     ∧ getitem (lit "clean_text") d'
       = Ok [VStr (lit "nice place"); VStr []; VStr (lit "5")])
  ∧ (∃ h' d',
       preprocess_reviews sample_repr (λ v, VStr (str sample_repr v)) 0%nat
         {[ 0%nat := gappy_frame ]}
       = (Ok 1%nat, h')
       ∧ h' !! 1%nat = Some d'
       ∧ getitem (lit "clean_text") d'
         = Ok [VStr (lit "nice place"); VStr (lit "none"); VStr (lit "5")]).
Proof.
  split.
  - eexists _, _. split; [vm_compute; reflexivity|]. split; vm_compute; reflexivity.
  - eexists _, _. split; [vm_compute; reflexivity|]. split; vm_compute; reflexivity.
Qed.

(** ** Copies, not in-place updates *)




(** ** The sentiment step *)

Lemma map_label_cases (str_lower : pystr → pystr) (raw_label : pystr) :
  let lowered := str_lower raw_label in
  (contains (lit "pos") lowered = true → map_label str_lower raw_label = lit "positive")
  ∧ (contains (lit "pos") lowered = false → contains (lit "neg") lowered = true
     → map_label str_lower raw_label = lit "negative")
  ∧ (contains (lit "pos") lowered = false → contains (lit "neg") lowered = false
     → map_label str_lower raw_label = lit "neutral").
Proof.
  unfold map_label. cbv zeta.
  repeat split; intros; repeat match goal with H : _ = _ |- _ => rewrite H end; done.
Qed.

Example map_label_samples :
  map_label lower (lit "POSITIVE") = lit "positive"
  ∧ map_label lower (lit "Negative") = lit "negative"
  ∧ map_label lower (lit "LABEL_1") = lit "neutral"
  ∧ map_label lower (lit "not positive, NEG") = lit "positive".
Proof. vm_compute. repeat split; done. Qed.

(** C1: in the frame that [add_sentiment] returns, the sentiment of each
    record is "positive" when its lowercased raw label contains "pos",
    else "negative" when it contains "neg", else "neutral". *)
Theorem add_sentiment_label_mapping
    (str_lower : pystr → pystr)
    (pipeline : list value → result (list classification))
    (h : gmap nat DataFrame) (df : nat) (d : DataFrame)
    (texts : list value) (sentiments : list classification) :
  h !! df = Some d →
  getitem (lit "clean_text") d = Ok texts →
  pipeline texts = Ok sentiments →
  length sentiments = nrows d →
  ∃ r' h' d' mapped,
    add_sentiment str_lower pipeline df h = (Ok r', h')
    ∧ h' !! r' = Some d'
    ∧ getitem (lit "sentiment") d' = Ok (VStr <$> mapped)
    ∧ length mapped = length sentiments
    ∧ ∀ i res m,
        sentiments !! i = Some res → mapped !! i = Some m →
        let lowered := str_lower (label res) in
        (contains (lit "pos") lowered = true → m = lit "positive")
        ∧ (contains (lit "pos") lowered = false → contains (lit "neg") lowered = true
           → m = lit "negative")
        ∧ (contains (lit "pos") lowered = false → contains (lit "neg") lowered = false
           → m = lit "neutral").
Proof.
  intros Hd Htexts Hpipe Hlen.
  eexists _, _, _, ((λ res, map_label str_lower (label res)) <$> sentiments).
  split; [by eapply add_sentiment_run|].
  split; [apply lookup_insert_eq|].
  split; [|split].
  - unfold getitem. cbn [columns].
    rewrite find_put_other by (by vm_compute). rewrite find_put_same.
    by rewrite <- list_fmap_compose.
  - by rewrite length_fmap.
  - intros i res m Hres Hm. rewrite list_lookup_fmap, Hres in Hm.
    injection Hm as <-. apply map_label_cases.
Qed.

Lemma add_sentiment_label_mapping_witness :
  ∃ r' h' d' mapped,
    add_sentiment lower sample_pipeline 0%nat cleaned_heap = (Ok r', h')
    ∧ h' !! r' = Some d'
    ∧ getitem (lit "sentiment") d' = Ok (VStr <$> mapped)
    ∧ length mapped = 2%nat
    ∧ ∀ i res m,
        [ {| label := lit "POSITIVE"; score := 0x3FEFAE147AE147AE |};
          {| label := lit "LABEL_1"; score := 0x3FEFAE147AE147AE |} ] !! i = Some res →
        mapped !! i = Some m →
        let lowered := lower (label res) in
        (contains (lit "pos") lowered = true → m = lit "positive")
        ∧ (contains (lit "pos") lowered = false → contains (lit "neg") lowered = true
           → m = lit "negative")
        ∧ (contains (lit "pos") lowered = false → contains (lit "neg") lowered = false
           → m = lit "neutral").
Proof.
  apply (add_sentiment_label_mapping lower sample_pipeline cleaned_heap 0%nat cleaned_frame
           [VStr (lit "great food, see"); VStr (lit "5")]
           [ {| label := lit "POSITIVE"; score := 0x3FEFAE147AE147AE |};
             {| label := lit "LABEL_1"; score := 0x3FEFAE147AE147AE |} ]).
  - vm_compute. reflexivity.
  - vm_compute. reflexivity.
  - vm_compute. reflexivity.
  - reflexivity.
Defined.

(** ** The LLM steps *)

Lemma dict_get_absent (entries : list (value * value)) (key : pystr) (default : value) :
  has_key entries key = false → dict_get entries key default = default.
Proof.
  induction entries as [|[k v] entries IH]; [done|].
  cbn. destruct (is_str key k); [done|]. apply IH.
Qed.

Lemma call_llm_ok (chat : chat_request → result value) (model prompt : pystr)
    (temperature : Z) (text : pystr) :
  chat {| model := model;
          messages :=
            [ (lit "system", lit "You are an expert business analyst for local businesses.");
              (lit "user", prompt) ];
          temperature := temperature |} = Ok (VStr text) →
  _call_llm chat model prompt temperature = Ok (strip text).
Proof. unfold _call_llm. by intros ->. Qed.

(** C2: when the text that the LLM returned does not decode to a mapping
    (the decoder raises, or gives something else than a dict),
    [extract_themes] returns the fallback dict with that text under "raw",
    and raises nothing. *)
Theorem extract_themes_fallback
    (chat : chat_request → result value) (model : pystr)
    (json_loads : pystr → result value)
    (df : DataFrame) (max_reviews : Z)
    (texts : list value) (joined_text raw : pystr) :
  getitem (lit "clean_text") (head max_reviews df) = Ok texts →
  join_cells nl texts = Ok joined_text →
  _call_llm chat model (themes_prompt joined_text) default_temperature = Ok raw →
  ((∃ e, json_loads raw = Raise e)
   ∨ (∃ v, json_loads raw = Ok v ∧ ∀ themes, v ≠ VDict themes)) →
  extract_themes chat model json_loads df max_reviews
  = Ok [ (VStr (lit "positive"), VList []);
         (VStr (lit "negative"), VList []);
         (VStr (lit "raw"), VStr raw) ].
Proof.
  intros Htexts Hjoin Hllm Hjson.
  unfold extract_themes. cbv zeta.
  rewrite Htexts. cbn [mbind result_bind].
  rewrite Hjoin. cbn [mbind result_bind].
  rewrite Hllm. cbn [mbind result_bind].
  destruct Hjson as [[e ->]|(v & -> & Hv)]; [done|].
  destruct v; try done. by destruct (Hv entries).
Qed.

Lemma extract_themes_fallback_witness :
  extract_themes (sample_chat (VStr (lit "  Sorry, I cannot.  "))) (lit "gpt-4.1-mini")
    sample_json_loads cleaned_frame 50
  = Ok [ (VStr (lit "positive"), VList []);
         (VStr (lit "negative"), VList []);
         (VStr (lit "raw"), VStr (lit "Sorry, I cannot.")) ].
Proof.
  apply (extract_themes_fallback _ _ _ cleaned_frame 50
           [VStr (lit "great food, see"); VStr (lit "5")]
           (lit "great food, see" ++ nl ++ lit "5")).
  - vm_compute. reflexivity.
  - vm_compute. reflexivity.
  - vm_compute. reflexivity.
  - left. eexists. vm_compute. reflexivity.
Defined.

(** Valid JSON that is not an object takes the fallback too; an object
    is returned as it is. *)
Example extract_themes_samples :
  extract_themes (sample_chat (VStr (lit "[]"))) (lit "gpt-4.1-mini")
    sample_json_loads cleaned_frame 50
  = Ok (fallback_themes (lit "[]"))
  ∧ extract_themes (sample_chat (VStr (lit " {} "))) (lit "gpt-4.1-mini")
      sample_json_loads cleaned_frame 50
    = Ok [].
Proof. vm_compute. split; reflexivity. Qed.

(** C10: [generate_recommendations] raises nothing of its own for any
    themes dict: its outcome is that of the LLM call on the prompt, in
    which a missing "positive" or "negative" key shows as the empty list.
    This holds for the fallback dict, the empty dict and every dict that
    [extract_themes] returns. *)
Theorem recommendations_accept_any_themes
    (chat : chat_request → result value) (model : pystr)
    (repr_rest : value → pystr)
    (df : DataFrame) (cells : list value) (themes : list (value * value)) :
  getitem (lit "sentiment") df = Ok cells →
  let counts := VDict (value_counts cells) in
  let prompt := recommendations_prompt repr_rest (nrows df) counts themes in
  generate_recommendations chat model repr_rest df themes
  = _call_llm chat model prompt default_temperature
  ∧ (∀ text,
       chat {| model := model;
               messages :=
                 [ (lit "system", lit "You are an expert business analyst for local businesses.");
                   (lit "user", prompt) ];
               temperature := default_temperature |} = Ok (VStr text) →
       generate_recommendations chat model repr_rest df themes = Ok (strip text))
  ∧ (has_key themes (lit "positive") = false →
     prompt = recommendations_prompt repr_rest (nrows df) counts
                ((VStr (lit "positive"), VList []) :: themes))
  ∧ (has_key themes (lit "negative") = false →
     prompt = recommendations_prompt repr_rest (nrows df) counts
                ((VStr (lit "negative"), VList []) :: themes))
  ∧ (∀ raw, themes = fallback_themes raw →
     prompt = recommendations_prompt repr_rest (nrows df) counts
                [ (VStr (lit "positive"), VList []); (VStr (lit "negative"), VList []) ]).
Proof.
  intros Hcells counts prompt.
  assert (generate_recommendations chat model repr_rest df themes
          = _call_llm chat model prompt default_temperature) as Hrun.
  { unfold generate_recommendations. cbv zeta. by rewrite Hcells. }
  split; [done|]. split; [|split; [|split]].
  - intros text Hchat. rewrite Hrun. by apply call_llm_ok.
  - intros Hpos. unfold prompt, recommendations_prompt.
    rewrite (dict_get_absent _ _ _ Hpos). reflexivity.
  - intros Hneg. unfold prompt, recommendations_prompt.
    rewrite (dict_get_absent _ _ _ Hneg). reflexivity.
  - intros raw ->. reflexivity.
Qed.

Lemma recommendations_accept_any_themes_witness :
  let df := {| nrows := 1; columns := [(lit "sentiment", [VStr (lit "positive")])] |} in
  let counts := VDict [(VStr (lit "positive"), VInt 1)] in
  generate_recommendations (sample_chat (VStr (lit " - Add evening staff. ")))
    (lit "gpt-4.1-mini") sample_repr df []
  = Ok (lit "- Add evening staff.")
  ∧ recommendations_prompt sample_repr 1 counts []
    = recommendations_prompt sample_repr 1 counts [(VStr (lit "positive"), VList [])]
  ∧ recommendations_prompt sample_repr 1 counts []
    = recommendations_prompt sample_repr 1 counts [(VStr (lit "negative"), VList [])].
Proof.
  intros df counts.
  destruct (recommendations_accept_any_themes
              (sample_chat (VStr (lit " - Add evening staff. "))) (lit "gpt-4.1-mini")
              sample_repr df [VStr (lit "positive")] [])
    as (_ & Hrun & Hpos & Hneg & _).
  - vm_compute. reflexivity.
  - split; [|split].
    + apply (Hrun (lit " - Add evening staff. ")). reflexivity.
    + apply Hpos. reflexivity.
    + apply Hneg. reflexivity.
Defined.

(** Every dict that [extract_themes] returns is accepted. *)
Corollary recommendations_after_extract_themes
    (chat : chat_request → result value) (model : pystr)
    (json_loads : pystr → result value) (repr_rest : value → pystr)
    (analysed df : DataFrame) (max_reviews : Z)
    (cells : list value) (themes : list (value * value)) :
  extract_themes chat model json_loads analysed max_reviews = Ok themes →
  getitem (lit "sentiment") df = Ok cells →
  generate_recommendations chat model repr_rest df themes
  = _call_llm chat model
      (recommendations_prompt repr_rest (nrows df) (VDict (value_counts cells)) themes)
      default_temperature.
Proof.
  intros _ Hcells. unfold generate_recommendations. cbv zeta. by rewrite Hcells.
Qed.

(** ** Aggregate stats *)

(** C8: on an empty sentiment-labelled collection (the input that the
    contract of [compute_basic_stats] names, and the only one its callers
    pass) with no rating column, the call does not raise and returns
    total_reviews = 0 and avg_rating = None, next to the counts of the
    sentiment column. *)
Theorem compute_basic_stats_empty
    (series_mean : list value → result Z) (df : DataFrame) (cells : list value) :
  nrows df = 0%nat →
  has_column (lit "rating") df = false →
  getitem (lit "sentiment") df = Ok cells →
  compute_basic_stats series_mean df
  = Ok [ (VStr (lit "total_reviews"), VInt 0);
         (VStr (lit "avg_rating"), VNone);
         (VStr (lit "sentiment_counts"), VDict (value_counts cells)) ].
Proof.
  intros Hrows Hrating Hcells. unfold compute_basic_stats.
  rewrite Hrows, Hrating. cbn [mbind result_bind]. rewrite Hcells. reflexivity.
Qed.

Lemma compute_basic_stats_empty_witness :
  compute_basic_stats sample_mean
    (empty_frame [lit "text"; lit "clean_text"; lit "sentiment"; lit "sentiment_score"])
  = Ok [ (VStr (lit "total_reviews"), VInt 0);
         (VStr (lit "avg_rating"), VNone);
         (VStr (lit "sentiment_counts"), VDict []) ].
Proof.
  apply (compute_basic_stats_empty sample_mean
           (empty_frame [lit "text"; lit "clean_text"; lit "sentiment"; lit "sentiment_score"])
           []).
  - reflexivity.
  - vm_compute. reflexivity.
  - vm_compute. reflexivity.
Defined.

(** Outside that contract: the sentiment column is read without a guard,
    so a frame that was never labelled raises [KeyError]. *)
Lemma compute_basic_stats_needs_sentiment :
  compute_basic_stats sample_mean (empty_frame [lit "text"])
  = Raise (KeyError (lit "sentiment")).
Proof. vm_compute. reflexivity. Qed.

(** ** The fetcher *)

(** C6: with no [api_key] argument and an empty configured key, the call
    raises [ValueError] and the list of requests sent is what it was. *)
Theorem fetch_without_key
    (infer_dtype : list value → list value)
    (http_get : request → result response) (place_id hl : pystr) (sent : list request) :
  fetch_google_maps_reviews infer_dtype [] http_get place_id None hl sent
  = (Raise (ValueError (lit "SERPAPI_API_KEY is not set. Please configure it in .env or config.py")),
     sent).
Proof.
  unfold fetch_google_maps_reviews. cbn [truthy].
  rewrite bool_decide_eq_true_2 by done. reflexivity.
Qed.

(** With a key, exactly one request goes out, to the fixed endpoint. *)
Lemma fetch_with_key_sends_one
    (infer_dtype : list value → list value)
    (configured : pystr) (http_get : request → result response)
    (place_id key hl : pystr) (sent : list request) :
  key ≠ [] →
  (fetch_google_maps_reviews infer_dtype configured http_get place_id (Some key) hl sent).2
  = sent ++ [ {| url := SERPAPI_ENDPOINT;
                 params := [ (lit "engine", lit "google_maps_reviews");
                             (lit "place_id", place_id);
                             (lit "hl", hl);
                             (lit "api_key", key) ] |} ].
Proof.
  intros Hkey. unfold fetch_google_maps_reviews. cbn [truthy].
  by rewrite bool_decide_eq_false_2.
Qed.

(** C7, as stated, fails: a "reviews" field that is a non-empty string, a
    list of numbers or a number makes the call raise. *)
Lemma fetch_malformed_reviews_raises :
  (fetch_google_maps_reviews sample_infer []
     (sample_http (VDict [(VStr (lit "reviews"), VStr (lit "N/A"))]))
     (lit "place") (Some (lit "key")) DEFAULT_HL []).1
  = Raise AttributeError
  ∧ (fetch_google_maps_reviews sample_infer []
       (sample_http (VDict [(VStr (lit "reviews"), VList [VInt 5])]))
       (lit "place") (Some (lit "key")) DEFAULT_HL []).1
    = Raise AttributeError
  ∧ (fetch_google_maps_reviews sample_infer []
       (sample_http (VDict [(VStr (lit "reviews"), VInt 7)]))
       (lit "place") (Some (lit "key")) DEFAULT_HL []).1
    = Raise TypeError.
Proof. vm_compute. repeat split; reflexivity. Qed.

(** C7, amended: when the response is a JSON object whose "reviews" field
    is absent or falsy (an empty list, null, an empty string, 0, false, an
    empty object), the call returns the empty collection with the columns
    author, rating, date, text, and raises nothing. *)
Theorem fetch_no_reviews
    (infer_dtype : list value → list value)
    (configured : pystr) (http_get : request → result response)
    (place_id : pystr) (api_key : option pystr) (hl : pystr) (sent : list request)
    (r : response) (entries : list (value * value)) :
  let key := match api_key with None => configured | Some k => k end in
  key ≠ [] →
  http_get {| url := SERPAPI_ENDPOINT;
              params := [ (lit "engine", lit "google_maps_reviews");
                          (lit "place_id", place_id);
                          (lit "hl", hl);
                          (lit "api_key", key) ] |} = Ok r →
  raise_for_status r = Ok () →
  json r = Ok (VDict entries) →
  truthy (dict_get entries (lit "reviews") (VList [])) = false →
  ∃ frame,
    (fetch_google_maps_reviews infer_dtype configured http_get place_id api_key hl sent).1 = Ok frame
    ∧ nrows frame = 0%nat
    ∧ columns frame = [ (lit "author", []); (lit "rating", []); (lit "date", []); (lit "text", []) ].
Proof.
  intros key Hkey Hget Hstatus Hjson Hfalsy.
  exists (empty_frame review_columns). split; [|done].
  unfold fetch_google_maps_reviews. fold key. cbn [truthy].
  rewrite bool_decide_eq_false_2 by done. cbn [negb fst].
  rewrite Hget. cbn [mbind result_bind].
  rewrite Hstatus. cbn [mbind result_bind].
  rewrite Hjson. cbn [mbind result_bind get].
  by rewrite Hfalsy.
Qed.

Lemma fetch_no_reviews_witness :
  ∃ frame,
    (fetch_google_maps_reviews sample_infer (lit "configured-key")
       (sample_http (VDict [(VStr (lit "reviews"), VList [])]))
       (lit "place") None DEFAULT_HL []).1 = Ok frame
    ∧ nrows frame = 0%nat
    ∧ columns frame = [ (lit "author", []); (lit "rating", []); (lit "date", []); (lit "text", []) ].
Proof.
  apply (fetch_no_reviews sample_infer (lit "configured-key")
           (sample_http (VDict [(VStr (lit "reviews"), VList [])]))
           (lit "place") None DEFAULT_HL []
           {| status_code := 200; json := Ok (VDict [(VStr (lit "reviews"), VList [])]) |}
           [(VStr (lit "reviews"), VList [])]).
  - vm_compute. discriminate.
  - reflexivity.
  - reflexivity.
  - reflexivity.
  - reflexivity.
Defined.

(** An absent field reads as the default [[]], which is falsy. *)
Lemma reviews_absent_is_falsy (entries : list (value * value)) :
  has_key entries (lit "reviews") = false →
  truthy (dict_get entries (lit "reviews") (VList [])) = false.
Proof. intros H. by rewrite dict_get_absent. Qed.

(** A well-formed response gives one row per review; the ratings 5 and
    [None] are stored as 5.0 and NaN. *)
Example fetch_two_reviews :
  (fetch_google_maps_reviews sample_infer []
     (sample_http
        (VDict [ (VStr (lit "reviews"),
                  VList [ VDict [ (VStr (lit "user"), VStr (lit "Ann"));
                                  (VStr (lit "rating"), VInt 5);
                                  (VStr (lit "snippet"), VStr (lit "Great")) ];
                          VDict [ (VStr (lit "snippet"), VStr []);
                                  (VStr (lit "review"), VStr (lit "Bad")) ] ]) ]))
     (lit "place") (Some (lit "key")) DEFAULT_HL []).1
  = Ok {| nrows := 2;
          columns := [ (lit "author", [VStr (lit "Ann"); VStr []]);
                       (lit "rating", [VFloat 0x4014000000000000; nan]);
                       (lit "date", [VStr []; VStr []]);
                       (lit "text", [VStr (lit "Great"); VStr (lit "Bad")]) ] |}.
Proof. vm_compute. reflexivity. Qed.

(** ** More on text cleaning *)

Lemma take_drop_while f s : take_while f s ++ drop_while f s = s.
Proof. induction s as [|c s IH]; [done|]. cbn. destruct (f c); [|done]. cbn. by rewrite IH. Qed.

Lemma word_at_cons c s :
  word_at (c :: s) = if is_space c then [] else c :: word_at s.
Proof. unfold word_at. cbn. by destruct (is_space c). Qed.

Lemma nonspace_run_word s : Re.nonspace_run s = length (word_at s).
Proof. reflexivity. Qed.

(** Where the URL pattern matches, the text begins with one of the two
    prefixes and a character that is not whitespace. *)
Lemma url_pattern_inv x :
  Re.url_pattern x ≠ None →
  ∃ p c rest, (p = lit "http" ∨ p = lit "www.") ∧ x = p ++ c :: rest ∧ is_space c = false.
Proof.
  unfold Re.url_pattern, Re.prefix_then_nonspace. intros Hx.
  assert (∀ p, starts_with p x = true → Re.nonspace_run (drop (length p) x) ≠ 0%nat →
               ∃ c rest, x = p ++ c :: rest ∧ is_space c = false) as Hgen.
  { intros p [r ->]%starts_with_spec. rewrite drop_app_length.
    destruct r as [|c r]; [done|]. rewrite nonspace_run_word, word_at_cons.
    destruct (is_space c) eqn:Hc; [done|]. eauto. }
  destruct (starts_with (lit "http") x) eqn:H1.
  - destruct (Re.nonspace_run (drop (length (lit "http")) x)) eqn:Hrun.
    + destruct (starts_with (lit "www.") x) eqn:H2; [|done].
      destruct (Re.nonspace_run (drop (length (lit "www.")) x)) eqn:Hrun2; [done|].
      destruct (Hgen (lit "www.")) as (c & rest & ? & ?); [done|lia|]. eauto 10.
    + destruct (Hgen (lit "http")) as (c & rest & ? & ?); [done|lia|]. eauto 10.
  - destruct (starts_with (lit "www.") x) eqn:H2; [|done].
    destruct (Re.nonspace_run (drop (length (lit "www.")) x)) eqn:Hrun2; [done|].
    destruct (Hgen (lit "www.")) as (c & rest & ? & ?); [done|lia|]. eauto 10.
Qed.

Lemma url_pattern_intro p c rest :
  p = lit "http" ∨ p = lit "www." → is_space c = false →
  Re.url_pattern (p ++ c :: rest) ≠ None.
Proof.
  intros [->| ->] Hc; unfold Re.url_pattern, Re.prefix_then_nonspace.
  - change (starts_with (lit "http") (lit "http" ++ c :: rest)) with true.
    change (drop (length (lit "http")) (lit "http" ++ c :: rest)) with (c :: rest).
    cbv beta iota. rewrite nonspace_run_word, word_at_cons, Hc. done.
  - change (starts_with (lit "http") (lit "www." ++ c :: rest)) with false.
    change (starts_with (lit "www.") (lit "www." ++ c :: rest)) with true.
    change (drop (length (lit "www.")) (lit "www." ++ c :: rest)) with (c :: rest).
    cbv beta iota. rewrite nonspace_run_word, word_at_cons, Hc. done.
Qed.

Lemma word_at_prefix p c rest :
  p = lit "http" ∨ p = lit "www." → is_space c = false →
  word_at (p ++ c :: rest) = p ++ c :: word_at rest.
Proof.
  intros [->| ->] Hc.
  - change (lit "http" ++ c :: rest) with (104 :: 116 :: 116 :: 112 :: c :: rest).
    rewrite !word_at_cons, Hc. reflexivity.
  - change (lit "www." ++ c :: rest) with (119 :: 119 :: 119 :: 46 :: c :: rest).
    rewrite !word_at_cons, Hc. reflexivity.
Qed.

(** A match of the URL pattern is decided by the word at the start of the
    text: a text whose first word is a prefix of the first word of a text
    without a match has no match either. *)
Lemma url_pattern_transfer a b :
  word_at a `prefix_of` word_at b → Re.url_pattern b = None → Re.url_pattern a = None.
Proof.
  intros [l Hl] Hb. destruct (Re.url_pattern a) eqn:Ha; [|done]. exfalso.
  destruct (url_pattern_inv a) as (p & c & rest & Hp & -> & Hc); [by rewrite Ha|].
  rewrite (word_at_prefix _ _ _ Hp Hc) in Hl.
  pose proof (take_drop_while (λ c, negb (is_space c)) b) as Hsplit.
  fold (word_at b) in Hsplit. rewrite Hl in Hsplit.
  rewrite <- !app_assoc in Hsplit. cbn in Hsplit.
  by eapply (url_pattern_intro p c); [done|done|rewrite Hsplit].
Qed.

Lemma no_match_tail m c s : no_match m (c :: s) = true → no_match m s = true.
Proof. cbn [no_match]. by intros [_ ?]%andb_prop. Qed.

Lemma no_match_head m c s : no_match m (c :: s) = true → m (c :: s) = None.
Proof. cbn [no_match]. by intros [?%bool_decide_eq_true _]%andb_prop. Qed.

Lemma no_match_cons m c s :
  m (c :: s) = None → no_match m s = true → no_match m (c :: s) = true.
Proof. intros Hc Hs. cbn [no_match]. by rewrite bool_decide_eq_true_2, Hs. Qed.

Lemma url_pattern_space c s : is_space c = true → Re.url_pattern (c :: s) = None.
Proof.
  intros Hc. apply (url_pattern_transfer _ []); [|done].
  rewrite word_at_cons, Hc. apply prefix_nil.
Qed.

(** A match of the URL pattern runs to the end of the word it starts in. *)
Lemma url_pattern_length c s n :
  Re.url_pattern (c :: s) = Some (S n) → n = Re.nonspace_run s ∧ is_space c = false.
Proof.
  intros Hm.
  destruct (url_pattern_inv (c :: s)) as (p & d & rest & Hp & Hs & Hd); [by rewrite Hm|].
  assert (Re.url_pattern (c :: s) = Some (length (word_at (c :: s)))) as Hlen.
  { rewrite Hs, (word_at_prefix _ _ _ Hp Hd).
    unfold Re.url_pattern, Re.prefix_then_nonspace.
    destruct Hp as [-> | ->].
    - change (starts_with (lit "http") (lit "http" ++ d :: rest)) with true.
      change (drop (length (lit "http")) (lit "http" ++ d :: rest)) with (d :: rest).
      cbv beta iota. rewrite nonspace_run_word, word_at_cons, Hd. reflexivity.
    - change (starts_with (lit "http") (lit "www." ++ d :: rest)) with false.
      change (starts_with (lit "www.") (lit "www." ++ d :: rest)) with true.
      change (drop (length (lit "www.")) (lit "www." ++ d :: rest)) with (d :: rest).
      cbv beta iota. rewrite nonspace_run_word, word_at_cons, Hd. reflexivity. }
  rewrite Hm, word_at_cons in Hlen.
  destruct (is_space c); [done|]. cbn in Hlen. split; [|done].
  rewrite nonspace_run_word. congruence.
Qed.

(** After [re.sub(url, "", s)] the URL pattern matches nowhere. *)
Lemma sub_url_no_match s k :
  k = 0%nat ∨ k = Re.nonspace_run s →
  no_match Re.url_pattern (Re.sub_from Re.url_pattern [] k s) = true
  ∧ word_at (Re.sub_from Re.url_pattern [] k s) `prefix_of` word_at s
  ∧ (k ≠ 0%nat → word_at (Re.sub_from Re.url_pattern [] k s) = []).
Proof.
  revert k. induction s as [|c s IH]; intros k Hk.
  { cbn. split; [done|]. split; [done|]. done. }
  cbn [Re.sub_from]. destruct k as [|k].
  - destruct (Re.url_pattern (c :: s)) as [[|n]|] eqn:Hm.
    + by destruct (url_pattern_not_empty (c :: s)).
    + destruct (url_pattern_length _ _ _ Hm) as [-> Hc].
      destruct (IH (Re.nonspace_run s)) as (H1 & H2 & H3); [by right|].
      cbn [app]. split; [done|]. split; [|done].
      destruct (decide (Re.nonspace_run s = 0%nat)) as [Hz|Hz].
      * etrans; [apply H2|]. rewrite word_at_cons, Hc.
        rewrite nonspace_run_word in Hz. apply length_zero_iff_nil in Hz. rewrite Hz.
        apply prefix_nil.
      * rewrite (H3 Hz). apply prefix_nil.
    + destruct (IH 0%nat) as (H1 & H2 & _); [by left|].
      assert (word_at (c :: Re.sub_from Re.url_pattern [] 0 s) `prefix_of` word_at (c :: s)) as Hp.
      { rewrite !word_at_cons. destruct (is_space c); [done|]. by apply prefix_cons. }
      split; [|split; [done|done]].
      apply no_match_cons; [|done]. by eapply url_pattern_transfer.
  - destruct Hk as [|Hk]; [done|].
    rewrite nonspace_run_word, word_at_cons in Hk.
    destruct (is_space c) eqn:Hc; [done|]. cbn in Hk. injection Hk as Hk.
    destruct (IH k) as (H1 & H2 & H3); [right; by rewrite nonspace_run_word|].
    split; [done|].
    destruct (decide (k = 0%nat)) as [->|Hz].
    + symmetry in Hk. apply length_zero_iff_nil in Hk.
      assert (word_at (Re.sub_from Re.url_pattern [] 0 s) = []) as Hnil.
      { rewrite Hk in H2. by apply prefix_nil_inv in H2. }
      rewrite Hnil. split; [apply prefix_nil|done].
    + rewrite (H3 Hz). split; [apply prefix_nil|done].
Qed.

(** Replacing unwanted characters by spaces creates no match. *)
Lemma sub_unwanted_no_match s :
  no_match Re.url_pattern s = true →
  no_match Re.url_pattern (Re.sub_from Re.unwanted_pattern (lit " ") 0 s) = true
  ∧ word_at (Re.sub_from Re.unwanted_pattern (lit " ") 0 s) `prefix_of` word_at s.
Proof.
  induction s as [|c s IH]; [done|].
  intros Hs. destruct (IH (no_match_tail _ _ _ Hs)) as [H1 H2].
  cbn [Re.sub_from Re.unwanted_pattern]. destruct (Re.in_kept_class c) eqn:Hc.
  - assert (word_at (c :: Re.sub_from Re.unwanted_pattern (lit " ") 0 s)
            `prefix_of` word_at (c :: s)) as Hp.
    { rewrite !word_at_cons. destruct (is_space c); [done|]. by apply prefix_cons. }
    split; [|done]. apply no_match_cons; [|done].
    eapply url_pattern_transfer; [done|]. by eapply no_match_head.
  - change (lit " " ++ ?r) with (32 :: r). split.
    + apply no_match_cons; [|done]. by apply url_pattern_space.
    + rewrite word_at_cons. apply prefix_nil.
Qed.

(** Collapsing whitespace creates no match. *)
Lemma sub_spaces_no_match s k :
  k = 0%nat ∨ k = Re.space_run s →
  no_match Re.url_pattern s = true →
  no_match Re.url_pattern (Re.sub_from Re.spaces_pattern (lit " ") k s) = true
  ∧ (k = 0%nat → word_at (Re.sub_from Re.spaces_pattern (lit " ") k s) = word_at s).
Proof.
  revert k. induction s as [|c s IH]; intros k Hk Hs; [done|].
  pose proof (no_match_tail _ _ _ Hs) as Ht.
  rewrite space_run_cons in Hk. cbn [Re.sub_from]. destruct k as [|k].
  - rewrite spaces_pattern_cons. destruct (is_space c) eqn:Hc.
    + destruct (IH (Re.space_run s)) as [H1 _]; [by right|done|].
      change (lit " " ++ ?r) with (32 :: r). split.
      * apply no_match_cons; [|done]. by apply url_pattern_space.
      * intros _. by rewrite !word_at_cons, Hc.
    + destruct (IH 0%nat) as [H1 H2]; [by left|done|]. specialize (H2 eq_refl).
      assert (word_at (c :: Re.sub_from Re.spaces_pattern (lit " ") 0 s) = word_at (c :: s)) as Hw.
      { by rewrite !word_at_cons, H2. }
      split; [|done]. apply no_match_cons; [|done].
      eapply url_pattern_transfer; [by rewrite Hw|]. by eapply no_match_head.
  - destruct (is_space c) eqn:Hc; [|by destruct Hk].
    destruct Hk as [|Hk]; [done|]. injection Hk as ->.
    destruct (IH (Re.space_run s)) as [H1 _]; [by right|done|]. done.
Qed.

Lemma drop_while_no_match m f s :
  no_match m s = true → no_match m (drop_while f s) = true.
Proof.
  induction s as [|c s IH]; [done|]. intros Hs. cbn [drop_while].
  destruct (f c); [|done]. by eapply IH, no_match_tail.
Qed.

Lemma rstrip_cons c s :
  rstrip (c :: s) = if bool_decide (rstrip s = []) && is_space c then [] else c :: rstrip s.
Proof. cbn [rstrip]. destruct (rstrip s); [by destruct (is_space c)|done]. Qed.

Lemma rstrip_word_at s : word_at (rstrip s) `prefix_of` word_at s.
Proof.
  induction s as [|c s IH]; [done|]. rewrite rstrip_cons.
  destruct (bool_decide (rstrip s = []) && is_space c); [apply prefix_nil|].
  rewrite !word_at_cons. destruct (is_space c); [done|]. by apply prefix_cons.
Qed.

(** Stripping creates no match. *)
Lemma rstrip_no_match s :
  no_match Re.url_pattern s = true → no_match Re.url_pattern (rstrip s) = true.
Proof.
  induction s as [|c s IH]; [done|]. intros Hs.
  specialize (IH (no_match_tail _ _ _ Hs)). rewrite rstrip_cons.
  destruct (bool_decide (rstrip s = []) && is_space c); [done|].
  apply no_match_cons; [|done].
  eapply url_pattern_transfer; [|by eapply no_match_head].
  rewrite !word_at_cons. destruct (is_space c); [done|].
  apply prefix_cons, rstrip_word_at.
Qed.

(** The steps of [clean_text] after the URL removal and the lowercasing
    keep a text free of URL matches. *)
Lemma tidy_no_match s :
  no_match Re.url_pattern s = true →
  no_match Re.url_pattern (strip (Re.sub Re.spaces_pattern (lit " ") s)) = true.
Proof.
  intros Hs. unfold strip, lstrip, Re.sub.
  apply rstrip_no_match, drop_while_no_match.
  by apply (sub_spaces_no_match s 0); [left|].
Qed.

Lemma is_space_bounds c : is_space c = true → c ≤ 32 ∨ 133 ≤ c.
Proof.
  unfold is_space.
  rewrite !orb_true_iff, !andb_true_iff, !N.leb_le, !N.eqb_eq. lia.
Qed.

Lemma is_space_not_upper c : is_space c = true → is_upper c = false.
Proof.
  intros [H|H]%is_space_bounds; unfold is_upper.
  - apply andb_false_intro1, N.leb_gt. lia.
  - apply andb_false_intro2, N.leb_gt. lia.
Qed.

Lemma clean_char_output c :
  is_clean_char c = true → (is_space c = true → c = 32) → is_output_char c = true.
Proof.
  unfold is_clean_char, Re.in_kept_class, is_output_char.
  intros [Hk Hu%negb_true_iff]%andb_prop Hsp. rewrite Hu in Hk. cbn in Hk.
  destruct (is_lower c); [done|]. destruct (is_digit c); [done|]. cbn in *.
  destruct (is_space c).
  - rewrite (Hsp eq_refl). by rewrite orb_true_r.
  - cbn in Hk. by rewrite Hk.
Qed.

Lemma spaced_output s :
  Forall (λ c, is_clean_char c = true) s → spaced false s = true →
  Forall (λ c, is_output_char c = true) s.
Proof.
  induction 1 as [|c s Hc Hs IH]; [constructor|].
  intros Hsp. constructor; [|by eapply IH, spaced_tail].
  apply clean_char_output; [done|]. intros Hspace.
  cbn [spaced] in Hsp. rewrite Hspace in Hsp.
  by apply andb_prop in Hsp as [[?%N.eqb_eq _]%andb_prop _].
Qed.

(** X1.  The text that [clean_text] returns holds only lowercase ASCII
    letters, digits, the punctuation [.,!?'] and the space U+0020; a space
    is always followed by another character that is not a space, and the
    text does not begin with one. *)
Theorem clean_text_output_shape (v : value) :
  Forall (λ c, is_output_char c = true) (clean_text v)
  ∧ spaced false (clean_text v) = true
  ∧ starts_clean (clean_text v) = true.
Proof.
  destruct v; cbn [clean_text]; try (split; [constructor|done]).
  destruct (clean_str_shape s) as (Hchars & Hsp & Hst).
  split; [by apply spaced_output|done].
Qed.

(** X2.  Cleaning never makes a text longer. *)
Theorem clean_text_length (s : pystr) :
  (length (clean_text (VStr s)) ≤ length s)%nat.
Proof.
  cbn [clean_text]. unfold clean_str.
  etrans; [apply clean_after_urls_length|].
  unfold Re.sub. apply sub_from_length. cbn. lia.
Qed.

(** A second cleaning of a cleaned text only removes URL matches and
    tidies the spaces. *)
Lemma clean_str_of_clean t :
  Forall (λ c, is_clean_char c = true) t →
  clean_str t = strip (Re.sub Re.spaces_pattern (lit " ") (Re.sub Re.url_pattern [] t)).
Proof.
  intros Ht. unfold clean_str at 1.
  assert (Forall (λ c, is_clean_char c = true) (Re.sub Re.url_pattern [] t)) as Hu.
  { unfold Re.sub. by apply sub_from_Forall. }
  unfold Re.sub at 2. rewrite (sub_from_no_match _ _ _ (clean_no_unwanted _ Hu)).
  by rewrite (lower_id _ Hu).
Qed.

(** X3.  Cleaning reaches a fixed point after at most two passes. *)
Theorem clean_text_stable_after_two (s : pystr) :
  clean_text (VStr (clean_text (VStr (clean_text (VStr s)))))
  = clean_text (VStr (clean_text (VStr s))).
Proof.
  cbn [clean_text].
  destruct (clean_str_shape s) as (Hchars & _ & _).
  destruct (clean_str_shape (clean_str s)) as (Hchars2 & Hsp2 & Hst2).
  apply clean_str_fixed; try done.
  rewrite (clean_str_of_clean _ Hchars).
  apply tidy_no_match. unfold Re.sub.
  by apply (sub_url_no_match (clean_str s) 0); left.
Qed.

Lemma no_upper_Forall s : no_upper s = true ↔ Forall (λ c, is_upper c = false) s.
Proof.
  unfold no_upper. rewrite forallb_forall, Forall_forall.
  split; intros H c Hc.
  - apply negb_true_iff, H. by apply list_elem_of_In.
  - apply negb_true_iff, H. by apply list_elem_of_In.
Qed.

Lemma lower_id_no_upper s : Forall (λ c, is_upper c = false) s → lower s = s.
Proof.
  unfold lower. induction 1 as [|c s Hc Hs IH]; [done|].
  cbn. rewrite IH. unfold lower_char. by rewrite Hc.
Qed.

(** X4.  On a text without ASCII capitals one cleaning removes every URL
    match, and a second cleaning changes nothing. *)
Theorem clean_text_idempotent_without_capitals (s : pystr) :
  no_upper s = true →
  no_match Re.url_pattern (clean_text (VStr s)) = true
  ∧ clean_text (VStr (clean_text (VStr s))) = clean_text (VStr s).
Proof.
  intros Hs%no_upper_Forall. cbn [clean_text].
  assert (no_match Re.url_pattern (clean_str s) = true) as Hno.
  { unfold clean_str.
    destruct (sub_url_no_match s 0) as (H1 & _ & _); [by left|].
    destruct (sub_unwanted_no_match _ H1) as [H2 _].
    rewrite lower_id_no_upper.
    - by apply tidy_no_match.
    - unfold Re.sub. apply sub_from_Forall; [by repeat constructor|].
      by apply sub_from_Forall. }
  split; [done|].
  destruct (clean_str_shape s) as (Hchars & Hsp & Hst).
  by apply clean_str_fixed.
Qed.

Lemma clean_text_idempotent_without_capitals_witness :
  no_match Re.url_pattern (clean_text (VStr (lit "see https://x.co/a?b=1 & www.y.org  now!"))) = true
  ∧ clean_text (VStr (clean_text (VStr (lit "see https://x.co/a?b=1 & www.y.org  now!"))))
    = clean_text (VStr (lit "see https://x.co/a?b=1 & www.y.org  now!")).
Proof.
  apply (clean_text_idempotent_without_capitals (lit "see https://x.co/a?b=1 & www.y.org  now!")).
  vm_compute. reflexivity.
Defined.

Lemma no_content_Forall s :
  no_content s = true
  ↔ Forall (λ c, (is_upper c || is_lower c || is_digit c || is_kept_punct c) = false) s.
Proof.
  unfold no_content. rewrite forallb_forall, Forall_forall.
  split; intros H c Hc.
  - apply negb_true_iff, H. by apply list_elem_of_In.
  - apply negb_true_iff, H. by apply list_elem_of_In.
Qed.

Lemma sub_unwanted_all_space k s :
  Forall (λ c, (is_upper c || is_lower c || is_digit c || is_kept_punct c) = false) s →
  Forall (λ c, is_space c = true) (Re.sub_from Re.unwanted_pattern (lit " ") k s).
Proof.
  intros Hs. revert k. induction Hs as [|c s Hc Hs IH]; intros k; [constructor|].
  cbn [Re.sub_from]. destruct k as [|k]; [|apply IH].
  cbn [Re.unwanted_pattern]. destruct (Re.in_kept_class c) eqn:Hk.
  - constructor; [|apply IH]. unfold Re.in_kept_class in Hk.
    apply orb_false_iff in Hc as [Hc Hp]. apply orb_false_iff in Hc as [Hc Hd].
    apply orb_false_iff in Hc as [Hu Hl]. rewrite Hu, Hl, Hd, Hp in Hk. cbn in Hk.
    by rewrite orb_false_r in Hk.
  - change (lit " " ++ ?r) with (32 :: r). constructor; [done|apply IH].
Qed.

Lemma lower_all_space s :
  Forall (λ c, is_space c = true) s → Forall (λ c, is_space c = true) (lower s).
Proof.
  unfold lower. induction 1 as [|c s Hc Hs IH]; cbn; constructor; [|done].
  unfold lower_char. by rewrite (is_space_not_upper _ Hc).
Qed.

Lemma lstrip_all_space s : Forall (λ c, is_space c = true) s → lstrip s = [].
Proof. unfold lstrip. induction 1 as [|c s Hc Hs IH]; [done|]. cbn. by rewrite Hc. Qed.

(** X5.  A text with no letter, digit or kept punctuation (only emojis,
    symbols and whitespace) is cleaned to the empty string. *)
Theorem clean_text_without_content (s : pystr) :
  no_content s = true → clean_text (VStr s) = [].
Proof.
  intros Hs%no_content_Forall. cbn [clean_text]. unfold clean_str, strip.
  rewrite lstrip_all_space; [done|].
  unfold Re.sub. apply sub_from_Forall; [by repeat constructor|].
  apply lower_all_space, sub_unwanted_all_space.
  by apply sub_from_Forall.
Qed.

Lemma clean_text_without_content_witness :
  clean_text (VStr ([0x1F60A; 0x1F44D] ++ lit "  #@ " ++ [0x2764; 0x2003])) = [].
Proof.
  apply (clean_text_without_content ([0x1F60A; 0x1F44D] ++ lit "  #@ " ++ [0x2764; 0x2003])).
  vm_compute. reflexivity.
Defined.

(** ** More on the preprocessor and the sentiment step *)

Lemma well_formed_column d name cells :
  well_formed d = true → getitem name d = Ok cells → length cells = nrows d.
Proof.
  unfold well_formed, getitem. intros Hwf Hget.
  destruct (find_column name (columns d)) as [found|] eqn:Hfind; [|done].
  injection Hget as ->.
  induction (columns d) as [|[n old] cols IH]; [done|].
  cbn in Hwf, Hfind. apply andb_prop in Hwf as [Hn Hrest].
  destruct (bool_decide (n = name)).
  - injection Hfind as ->. by apply bool_decide_eq_true in Hn.
  - by apply IH.
Qed.

Lemma put_column_well_formed name cells cols n :
  length cells = n →
  forallb (λ col : pystr * list value, bool_decide (length col.2 = n)) cols = true →
  forallb (λ col : pystr * list value, bool_decide (length col.2 = n))
    (put_column name cells cols) = true.
Proof.
  intros Hlen. induction cols as [|[m old] cols IH]; cbn.
  - intros _. by rewrite bool_decide_eq_true_2.
  - intros [Hm Hrest]%andb_prop. destruct (bool_decide (m = name)); cbn.
    + by rewrite bool_decide_eq_true_2, Hrest.
    + by rewrite Hm, IH.
Qed.

Lemma getitem_put_other name other cells d :
  name ≠ other →
  getitem name {| nrows := nrows d; columns := put_column other cells (columns d) |}
  = getitem name d.
Proof. intros Hne. unfold getitem. cbn [columns]. by rewrite find_put_other. Qed.

Lemma getitem_put_same name cells n cols :
  getitem name {| nrows := n; columns := put_column name cells cols |} = Ok cells.
Proof. unfold getitem. cbn [columns]. by rewrite find_put_same. Qed.

(** X6.  Without a text column [preprocess_reviews] raises the schema
    error, and every object that existed before the call is unchanged. *)
Theorem preprocess_without_text_column
    (repr_rest : value → pystr) (astype_missing : value → value)
    (h : gmap nat DataFrame) (df : nat) (d : DataFrame) :
  h !! df = Some d →
  has_column (lit "text") d = false →
  ∃ h',
    preprocess_reviews repr_rest astype_missing df h
    = (Raise (ValueError (lit "Input DataFrame must have a 'text' column")), h')
    ∧ ∀ r d0, h !! r = Some d0 → h' !! r = Some d0.
Proof.
  intros Hd Hcol. eexists. split.
  - rewrite preprocess_reviews_unfold, Hd. cbv zeta. by rewrite Hcol.
  - intros r d0 Hr. rewrite lookup_insert_ne; [done|].
    intros <-. by rewrite fresh_unused in Hr.
Qed.

Lemma preprocess_without_text_column_witness :
  ∃ h',
    preprocess_reviews sample_repr sample_missing 0%nat {[ 0%nat := empty_frame [lit "review"] ]}
    = (Raise (ValueError (lit "Input DataFrame must have a 'text' column")), h')
    ∧ ∀ r d0, ({[ 0%nat := empty_frame [lit "review"] ]} : gmap nat DataFrame) !! r = Some d0
              → h' !! r = Some d0.
Proof.
  apply (preprocess_without_text_column sample_repr sample_missing _ 0%nat
           (empty_frame [lit "review"])).
  - vm_compute. reflexivity.
  - vm_compute. reflexivity.
Defined.

(** X7.  On a well-formed frame with a text column [preprocess_reviews]
    returns a well-formed frame with the same number of rows, in which
    every column but clean_text is what it was and clean_text holds one
    string per row. *)
Theorem preprocess_keeps_frame
    (repr_rest : value → pystr) (astype_missing : value → value)
    (h : gmap nat DataFrame) (df : nat) (d : DataFrame) :
  h !! df = Some d →
  well_formed d = true →
  has_column (lit "text") d = true →
  ∃ r' h' d' cleaned,
    preprocess_reviews repr_rest astype_missing df h = (Ok r', h')
    ∧ h' !! r' = Some d'
    ∧ nrows d' = nrows d
    ∧ well_formed d' = true
    ∧ (∀ name, name ≠ lit "clean_text" → getitem name d' = getitem name d)
    ∧ getitem (lit "clean_text") d' = Ok (VStr <$> cleaned)
    ∧ length cleaned = nrows d.
Proof.
  intros Hd Hwf Hcol.
  apply has_column_find in Hcol as [text Hfind].
  assert (getitem (lit "text") d = Ok text) as Htext by (unfold getitem; by rewrite Hfind).
  pose proof (well_formed_column _ _ _ Hwf Htext) as Hlen.
  eexists _, _, _, ((λ v, clean_text (astype_cell repr_rest astype_missing v)) <$> text).
  split; [by eapply preprocess_reviews_run|].
  split; [apply lookup_insert_eq|]. cbn [nrows].
  split; [done|]. split; [|split; [|split]].
  - unfold well_formed. cbn [columns nrows].
    apply put_column_well_formed; [by rewrite length_fmap|done].
  - intros name Hname. by apply getitem_put_other.
  - rewrite getitem_put_same. by rewrite <- list_fmap_compose.
  - by rewrite length_fmap.
Qed.

Lemma preprocess_keeps_frame_witness :
  ∃ r' h' d' cleaned,
    preprocess_reviews sample_repr sample_missing 0%nat raw_heap = (Ok r', h')
    ∧ h' !! r' = Some d'
    ∧ nrows d' = 2%nat
    ∧ well_formed d' = true
    ∧ (∀ name, name ≠ lit "clean_text" → getitem name d' = getitem name raw_frame)
    ∧ getitem (lit "clean_text") d' = Ok (VStr <$> cleaned)
    ∧ length cleaned = 2%nat.
Proof.
  apply (preprocess_keeps_frame sample_repr sample_missing raw_heap 0%nat raw_frame).
  - vm_compute. reflexivity.
  - vm_compute. reflexivity.
  - vm_compute. reflexivity.
Defined.

Lemma map_label_is_sentiment (str_lower : pystr → pystr) (raw_label : pystr) :
  is_sentiment (map_label str_lower raw_label) = true.
Proof. unfold map_label. cbv zeta. repeat case_match; by vm_compute. Qed.

(** X8.  Whatever the labels of the model are, every cell of the
    sentiment column is one of positive, negative and neutral; the score
    column holds the scores of the model in order; the number of rows and
    the other columns are unchanged. *)
Theorem add_sentiment_labels_and_scores
    (str_lower : pystr → pystr)
    (pipeline : list value → result (list classification))
    (h : gmap nat DataFrame) (df : nat) (d : DataFrame)
    (texts : list value) (sentiments : list classification) :
  h !! df = Some d →
  getitem (lit "clean_text") d = Ok texts →
  pipeline texts = Ok sentiments →
  length sentiments = nrows d →
  ∃ r' h' d' labels,
    add_sentiment str_lower pipeline df h = (Ok r', h')
    ∧ h' !! r' = Some d'
    ∧ nrows d' = nrows d
    ∧ getitem (lit "sentiment") d' = Ok (VStr <$> labels)
    ∧ Forall (λ l, is_sentiment l = true) labels
    ∧ getitem (lit "sentiment_score") d' = Ok ((λ res, VFloat (score res)) <$> sentiments)
    ∧ (∀ name, name ≠ lit "sentiment" → name ≠ lit "sentiment_score"
               → getitem name d' = getitem name d).
Proof.
  intros Hd Htexts Hpipe Hlen.
  eexists _, _, _, ((λ res, map_label str_lower (label res)) <$> sentiments).
  split; [by eapply add_sentiment_run|].
  split; [apply lookup_insert_eq|]. cbn [nrows].
  split; [done|]. split; [|split; [|split]].
  - unfold getitem. cbn [columns].
    rewrite find_put_other by (by vm_compute). rewrite find_put_same.
    by rewrite <- list_fmap_compose.
  - apply Forall_fmap, Forall_true. intros res. unfold compose.
    apply map_label_is_sentiment.
  - apply getitem_put_same.
  - intros name H1 H2. unfold getitem. cbn [columns].
    by rewrite !find_put_other.
Qed.

Lemma add_sentiment_labels_and_scores_witness :
  ∃ r' h' d' labels,
    add_sentiment lower sample_pipeline 0%nat cleaned_heap = (Ok r', h')
    ∧ h' !! r' = Some d'
    ∧ nrows d' = 2%nat
    ∧ getitem (lit "sentiment") d' = Ok (VStr <$> labels)
    ∧ Forall (λ l, is_sentiment l = true) labels
    ∧ getitem (lit "sentiment_score") d'
      = Ok [VFloat 0x3FEFAE147AE147AE; VFloat 0x3FEFAE147AE147AE]
    ∧ (∀ name, name ≠ lit "sentiment" → name ≠ lit "sentiment_score"
               → getitem name d' = getitem name cleaned_frame).
Proof.
  apply (add_sentiment_labels_and_scores lower sample_pipeline cleaned_heap 0%nat cleaned_frame
           [VStr (lit "great food, see"); VStr (lit "5")]
           [ {| label := lit "POSITIVE"; score := 0x3FEFAE147AE147AE |};
             {| label := lit "LABEL_1"; score := 0x3FEFAE147AE147AE |} ]).
  - vm_compute. reflexivity.
  - vm_compute. reflexivity.
  - vm_compute. reflexivity.
  - reflexivity.
Defined.

Lemma getitem_missing name d :
  has_column name d = false → getitem name d = Raise (KeyError name).
Proof.
  intros Hcol. unfold getitem.
  destruct (find_column name (columns d)) eqn:Hfind; [|done].
  assert (has_column name d = true) by (apply has_column_find; by rewrite Hfind).
  congruence.
Qed.

Lemma fresh_keeps (h : gmap nat DataFrame) (d : DataFrame) r d0 :
  h !! r = Some d0 → <[fresh (dom h) := d]> h !! r = Some d0.
Proof.
  intros Hr. rewrite lookup_insert_ne; [done|].
  intros <-. by rewrite fresh_unused in Hr.
Qed.

(** X9.  Without a clean_text column (the preprocessor has not run)
    [add_sentiment] raises [KeyError] for that column, whatever the model
    is, and the existing objects are unchanged. *)
Theorem add_sentiment_without_clean_text
    (str_lower : pystr → pystr)
    (pipeline : list value → result (list classification))
    (h : gmap nat DataFrame) (df : nat) (d : DataFrame) :
  h !! df = Some d →
  has_column (lit "clean_text") d = false →
  ∃ h',
    add_sentiment str_lower pipeline df h = (Raise (KeyError (lit "clean_text")), h')
    ∧ ∀ r d0, h !! r = Some d0 → h' !! r = Some d0.
Proof.
  intros Hd Hcol. eexists. split.
  - rewrite add_sentiment_unfold, Hd. cbv zeta. by rewrite (getitem_missing _ _ Hcol).
  - intros r d0. apply fresh_keeps.
Qed.

Lemma add_sentiment_without_clean_text_witness :
  ∃ h',
    add_sentiment lower sample_pipeline 0%nat raw_heap
    = (Raise (KeyError (lit "clean_text")), h')
    ∧ ∀ r d0, raw_heap !! r = Some d0 → h' !! r = Some d0.
Proof.
  apply (add_sentiment_without_clean_text lower sample_pipeline raw_heap 0%nat raw_frame).
  - vm_compute. reflexivity.
  - vm_compute. reflexivity.
Defined.

(** X10.  When the model raises, [add_sentiment] raises the same
    exception: no record gets a fallback label, and the existing objects
    are unchanged. *)
Theorem add_sentiment_model_failure
    (str_lower : pystr → pystr)
    (pipeline : list value → result (list classification))
    (h : gmap nat DataFrame) (df : nat) (d : DataFrame) (texts : list value) (e : exn) :
  h !! df = Some d →
  getitem (lit "clean_text") d = Ok texts →
  pipeline texts = Raise e →
  ∃ h',
    add_sentiment str_lower pipeline df h = (Raise e, h')
    ∧ ∀ r d0, h !! r = Some d0 → h' !! r = Some d0.
Proof.
  intros Hd Htexts Hpipe. eexists. split.
  - rewrite add_sentiment_unfold, Hd. cbv zeta. by rewrite Htexts, Hpipe.
  - intros r d0. apply fresh_keeps.
Qed.

Lemma add_sentiment_model_failure_witness :
  ∃ h',
    add_sentiment lower (λ _, Raise (OtherException (lit "out of memory"))) 0%nat cleaned_heap
    = (Raise (OtherException (lit "out of memory")), h')
    ∧ ∀ r d0, cleaned_heap !! r = Some d0 → h' !! r = Some d0.
Proof.
  apply (add_sentiment_model_failure lower (λ _, Raise (OtherException (lit "out of memory")))
           cleaned_heap 0%nat cleaned_frame [VStr (lit "great food, see"); VStr (lit "5")]).
  - vm_compute. reflexivity.
  - vm_compute. reflexivity.
  - reflexivity.
Defined.

(** X11.  When the model returns a number of results that differs from
    the number of rows of a non-empty frame, [add_sentiment] raises
    [ValueError] at the assignment of the sentiment column. *)
Theorem add_sentiment_result_count
    (str_lower : pystr → pystr)
    (pipeline : list value → result (list classification))
    (h : gmap nat DataFrame) (df : nat) (d : DataFrame)
    (texts : list value) (sentiments : list classification) :
  h !! df = Some d →
  getitem (lit "clean_text") d = Ok texts →
  pipeline texts = Ok sentiments →
  length sentiments ≠ nrows d →
  nrows d ≠ 0%nat →
  ∃ h',
    add_sentiment str_lower pipeline df h
    = (Raise (length_mismatch (length sentiments) (nrows d)), h')
    ∧ ∀ r d0, h !! r = Some d0 → h' !! r = Some d0.
Proof.
  intros Hd Htexts Hpipe Hlen Hrows. eexists. split.
  - rewrite add_sentiment_unfold, Hd. cbv zeta. rewrite Htexts, Hpipe.
    unfold setitem at 1. rewrite length_fmap.
    rewrite bool_decide_eq_false_2 by done.
    by rewrite bool_decide_eq_false_2 by done.
  - intros r d0. apply fresh_keeps.
Qed.

Lemma add_sentiment_result_count_witness :
  ∃ h',
    add_sentiment lower (λ _, Ok []) 0%nat cleaned_heap
    = (Raise (length_mismatch 0 2), h')
    ∧ ∀ r d0, cleaned_heap !! r = Some d0 → h' !! r = Some d0.
Proof.
  apply (add_sentiment_result_count lower (λ _, Ok []) cleaned_heap 0%nat cleaned_frame
           [VStr (lit "great food, see"); VStr (lit "5")] []).
  - vm_compute. reflexivity.
  - vm_compute. reflexivity.
  - reflexivity.
  - vm_compute. discriminate.
  - vm_compute. discriminate.
Defined.



(** ** More on the LLM steps *)

Lemma rstrip_rstrip s : rstrip (rstrip s) = rstrip s.
Proof.
  induction s as [|c s IH]; [done|]. rewrite rstrip_cons.
  destruct (bool_decide (rstrip s = []) && is_space c) eqn:Hb; [done|].
  rewrite rstrip_cons, IH, Hb. done.
Qed.

Lemma lstrip_starts_clean s : starts_clean (lstrip s) = true.
Proof.
  unfold lstrip. induction s as [|c s IH]; [done|]. cbn [drop_while].
  destruct (is_space c) eqn:Hc; [done|]. cbn. by rewrite Hc.
Qed.

Lemma strip_strip s : strip (strip s) = strip s.
Proof.
  unfold strip.
  rewrite (lstrip_id (rstrip (lstrip s))).
  - apply rstrip_rstrip.
  - apply rstrip_starts_clean, lstrip_starts_clean.
Qed.

(** X13.  A text returned by [_call_llm] is the content of the chat
    answer without the whitespace around it: it never begins or ends with
    whitespace, and stripping it again changes nothing. *)
Theorem call_llm_returns_stripped
    (chat : chat_request → result value) (model prompt : pystr)
    (temperature : Z) (text : pystr) :
  _call_llm chat model prompt temperature = Ok text →
  (∃ content,
     chat {| model := model;
             messages :=
               [ (lit "system", lit "You are an expert business analyst for local businesses.");
                 (lit "user", prompt) ];
             temperature := temperature |} = Ok (VStr content)
     ∧ text = strip content)
  ∧ strip text = text
  ∧ starts_clean text = true
  ∧ rstrip text = text.
Proof.
  unfold _call_llm. intros Hrun.
  destruct (chat _) as [content|e] eqn:Hchat; [|done]. cbn in Hrun.
  destruct content; try done. injection Hrun as <-.
  split; [eauto|]. split; [apply strip_strip|]. split.
  - apply rstrip_starts_clean, lstrip_starts_clean.
  - apply rstrip_rstrip.
Qed.

Lemma call_llm_returns_stripped_witness :
  (∃ content,
     sample_chat (VStr ([10] ++ lit "  All good. " ++ [10]))
       {| model := lit "gpt-4.1-mini";
          messages :=
            [ (lit "system", lit "You are an expert business analyst for local businesses.");
              (lit "user", lit "Hello") ];
          temperature := default_temperature |} = Ok (VStr content)
     ∧ lit "All good." = strip content)
  ∧ strip (lit "All good.") = lit "All good."
  ∧ starts_clean (lit "All good.") = true
  ∧ rstrip (lit "All good.") = lit "All good.".
Proof.
  apply (call_llm_returns_stripped (sample_chat (VStr ([10] ++ lit "  All good. " ++ [10])))
           (lit "gpt-4.1-mini") (lit "Hello") default_temperature (lit "All good.")).
  vm_compute. reflexivity.
Defined.

Lemma find_column_head_cols name k cols :
  find_column name ((λ c : pystr * list value, (c.1, take k c.2)) <$> cols)
  = take k <$> find_column name cols.
Proof.
  induction cols as [|[n cells] cols IH]; [done|].
  cbn. by destruct (bool_decide (n = name)).
Qed.

(** [head] takes the first rows of every column. *)
Lemma getitem_head name n d cells :
  (0 ≤ n)%Z → getitem name d = Ok cells →
  getitem name (head n d) = Ok (take (Z.to_nat n) cells).
Proof.
  intros Hn. unfold getitem, head. cbn [columns].
  rewrite find_column_head_cols.
  destruct (find_column name (columns d)); [|done].
  intros [= ->]. cbn. by rewrite (proj2 (Z.leb_le 0 n) Hn).
Qed.

(** X14.  [extract_themes] reads the first [max_reviews] cleaned texts
    only: two frames that agree on them give the same outcome. *)
Theorem extract_themes_sample_bound
    (chat : chat_request → result value) (model : pystr)
    (json_loads : pystr → result value)
    (df1 df2 : DataFrame) (max_reviews : Z) (cells1 cells2 : list value) :
  (0 ≤ max_reviews)%Z →
  getitem (lit "clean_text") df1 = Ok cells1 →
  getitem (lit "clean_text") df2 = Ok cells2 →
  take (Z.to_nat max_reviews) cells1 = take (Z.to_nat max_reviews) cells2 →
  extract_themes chat model json_loads df1 max_reviews
  = extract_themes chat model json_loads df2 max_reviews.
Proof.
  intros Hn H1 H2 Htake. unfold extract_themes. cbv zeta.
  by rewrite (getitem_head _ _ _ _ Hn H1), (getitem_head _ _ _ _ Hn H2), Htake.
Qed.

Lemma extract_themes_sample_bound_witness :
  extract_themes (sample_chat (VStr (lit "{}"))) (lit "gpt-4.1-mini") sample_json_loads
    cleaned_frame 1
  = extract_themes (sample_chat (VStr (lit "{}"))) (lit "gpt-4.1-mini") sample_json_loads
      {| nrows := 3;
         columns := [ (lit "clean_text",
                       [VStr (lit "great food, see"); VStr (lit "bad"); VStr (lit "slow")]) ] |}
      1.
Proof.
  apply (extract_themes_sample_bound _ _ _ _ _ 1
           [VStr (lit "great food, see"); VStr (lit "5")]
           [VStr (lit "great food, see"); VStr (lit "bad"); VStr (lit "slow")]).
  - lia.
  - vm_compute. reflexivity.
  - vm_compute. reflexivity.
  - reflexivity.
Defined.

(** X15.  [summarize_reviews] reads the first [max_reviews] cleaned texts
    only: two frames that agree on them give the same outcome. *)
Theorem summarize_reviews_sample_bound
    (chat : chat_request → result value) (model : pystr)
    (df1 df2 : DataFrame) (max_reviews : Z) (cells1 cells2 : list value) :
  (0 ≤ max_reviews)%Z →
  getitem (lit "clean_text") df1 = Ok cells1 →
  getitem (lit "clean_text") df2 = Ok cells2 →
  take (Z.to_nat max_reviews) cells1 = take (Z.to_nat max_reviews) cells2 →
  summarize_reviews chat model df1 max_reviews
  = summarize_reviews chat model df2 max_reviews.
Proof.
  intros Hn H1 H2 Htake. unfold summarize_reviews. cbv zeta.
  by rewrite (getitem_head _ _ _ _ Hn H1), (getitem_head _ _ _ _ Hn H2), Htake.
Qed.

Lemma summarize_reviews_sample_bound_witness :
  summarize_reviews (sample_chat (VStr (lit "Fine."))) (lit "gpt-4.1-mini") cleaned_frame 1
  = summarize_reviews (sample_chat (VStr (lit "Fine."))) (lit "gpt-4.1-mini")
      {| nrows := 3;
         columns := [ (lit "clean_text",
                       [VStr (lit "great food, see"); VStr (lit "bad"); VStr (lit "slow")]) ] |}
      1.
Proof.
  apply (summarize_reviews_sample_bound _ _ _ _ 1
           [VStr (lit "great food, see"); VStr (lit "5")]
           [VStr (lit "great food, see"); VStr (lit "bad"); VStr (lit "slow")]).
  - lia.
  - vm_compute. reflexivity.
  - vm_compute. reflexivity.
  - reflexivity.
Defined.

Lemma for_each_raises {A B} (f : A → result B) (xs : list A) i x e :
  xs !! i = Some x →
  f x = Raise e → (∀ y e', f y = Raise e' → e' = e) →
  for_each f xs = Raise e.
Proof.
  intros Hi Hx Huniq. revert i Hi. induction xs as [|y ys IH]; intros i Hi; [done|].
  cbn [for_each]. destruct (f y) as [b|e'] eqn:Hy.
  - destruct i as [|i]; [cbn in Hi; congruence|].
    cbn [mbind result_bind]. by rewrite (IH i Hi).
  - cbn. by rewrite (Huniq _ _ Hy).
Qed.

Lemma join_cells_non_str sep cells i v :
  cells !! i = Some v → (∀ s, v ≠ VStr s) → join_cells sep cells = Raise TypeError.
Proof.
  intros Hi Hv. unfold join_cells.
  erewrite for_each_raises; [done|exact Hi| |].
  - destruct v; try done. by destruct (Hv s).
  - intros y e'. destruct y; by intros [= <-].
Qed.

(** X16.  When one of the sampled clean_text cells is not a string,
    [extract_themes] and [summarize_reviews] raise [TypeError] from the
    join, whatever the chat service would answer. *)
Theorem llm_steps_need_strings
    (chat : chat_request → result value) (model : pystr)
    (json_loads : pystr → result value)
    (df : DataFrame) (max_reviews : Z) (cells : list value) (i : nat) (v : value) :
  getitem (lit "clean_text") (head max_reviews df) = Ok cells →
  cells !! i = Some v →
  (∀ s, v ≠ VStr s) →
  extract_themes chat model json_loads df max_reviews = Raise TypeError
  ∧ summarize_reviews chat model df max_reviews = Raise TypeError.
Proof.
  intros Hcells Hi Hv. unfold extract_themes, summarize_reviews. cbv zeta.
  rewrite Hcells. cbn [mbind result_bind].
  by rewrite (join_cells_non_str _ _ _ _ Hi Hv).
Qed.

Lemma llm_steps_need_strings_witness :
  let df := {| nrows := 2; columns := [(lit "clean_text", [VStr (lit "good"); VNone])] |} in
  extract_themes (sample_chat (VStr (lit "{}"))) (lit "gpt-4.1-mini") sample_json_loads df 50
  = Raise TypeError
  ∧ summarize_reviews (sample_chat (VStr (lit "{}"))) (lit "gpt-4.1-mini") df 100
    = Raise TypeError.
Proof.
  intros df. split.
  - apply (llm_steps_need_strings _ _ _ df 50 [VStr (lit "good"); VNone] 1 VNone); done.
  - apply (llm_steps_need_strings (sample_chat (VStr (lit "{}"))) (lit "gpt-4.1-mini")
             sample_json_loads df 100 [VStr (lit "good"); VNone] 1 VNone); done.
Defined.

(** ** More on the recommendations and the stats *)

(** X17.  Without a sentiment column [generate_recommendations] raises
    [KeyError] for that column, whatever the themes are and whatever the
    chat service would answer. *)
Theorem recommendations_without_sentiment
    (chat : chat_request → result value) (model : pystr) (repr_rest : value → pystr)
    (df : DataFrame) (themes : list (value * value)) :
  has_column (lit "sentiment") df = false →
  generate_recommendations chat model repr_rest df themes = Raise (KeyError (lit "sentiment")).
Proof.
  intros Hcol. unfold generate_recommendations. cbv zeta.
  by rewrite (getitem_missing _ _ Hcol).
Qed.

Lemma recommendations_without_sentiment_witness :
  generate_recommendations (sample_chat (VStr (lit "- ok"))) (lit "gpt-4.1-mini") sample_repr
    cleaned_frame [] = Raise (KeyError (lit "sentiment")).
Proof.
  apply (recommendations_without_sentiment _ _ _ cleaned_frame []).
  vm_compute. reflexivity.
Defined.

(** X18.  [generate_recommendations] reads the themes through their
    "positive" and "negative" entries only: two dicts that agree on them
    (such as two fallback dicts with different raw texts) give the same
    outcome. *)
Theorem recommendations_read_two_keys
    (chat : chat_request → result value) (model : pystr) (repr_rest : value → pystr)
    (df : DataFrame) (themes1 themes2 : list (value * value)) :
  dict_get themes1 (lit "positive") (VList []) = dict_get themes2 (lit "positive") (VList []) →
  dict_get themes1 (lit "negative") (VList []) = dict_get themes2 (lit "negative") (VList []) →
  generate_recommendations chat model repr_rest df themes1
  = generate_recommendations chat model repr_rest df themes2.
Proof.
  intros Hpos Hneg. unfold generate_recommendations, recommendations_prompt. cbv zeta.
  by rewrite Hpos, Hneg.
Qed.

Lemma recommendations_read_two_keys_witness :
  generate_recommendations (sample_chat (VStr (lit "- ok"))) (lit "gpt-4.1-mini") sample_repr
    cleaned_frame (fallback_themes (lit "first answer"))
  = generate_recommendations (sample_chat (VStr (lit "- ok"))) (lit "gpt-4.1-mini") sample_repr
      cleaned_frame (fallback_themes (lit "second answer")).
Proof.
  apply (recommendations_read_two_keys _ _ _ cleaned_frame
           (fallback_themes (lit "first answer")) (fallback_themes (lit "second answer")));
    reflexivity.
Defined.

Lemma value_eqb_str a v : value_eqb (VStr a) v = true ↔ v = VStr a.
Proof.
  destruct v; cbn; try (split; [done|by intros [=]]).
  rewrite bool_decide_eq_true. split; [by intros ->|by intros [= ->]].
Qed.

Lemma count_of_cons v c cells :
  count_of v (c :: cells) = ((if value_eqb v c then 1 else 0) + count_of v cells)%nat.
Proof.
  unfold count_of. rewrite filter_cons.
  destruct (decide (value_eqb v c = true)) as [->|Hne]; [done|].
  by apply not_true_is_false in Hne as ->.
Qed.

(** The counts of the distinct values of [cs] that satisfy [Q], taken in
    [L], add up to the number of cells of [L] that satisfy [Q] and occur
    in [cs]. *)
Lemma distinct_counts (L cs : list value) (Q : value → bool) :
  Forall (λ v, ∃ s, v = VStr s) cs →
  sum_list ((λ v, count_of v L) <$> filter (λ v, Q v = true) (distinct cs))
  = length (filter (λ x, Q x && occurs x cs = true) L).
Proof.
  intros Hcs. revert Q. induction Hcs as [|c cs [a ->] Hcs IH]; intros Q.
  { cbn. symmetry. apply length_zero_iff_nil. induction L as [|x L IHL]; [done|].
    rewrite filter_cons_False; [done|]. cbn. by rewrite andb_false_r. }
  cbn [distinct].
  set (Q' := λ v, Q v && negb (value_eqb (VStr a) v)).
  assert (∀ l : list value,
            filter (λ v, Q v = true) (filter (λ x, value_eqb (VStr a) x = false) l)
               = filter (λ v, Q' v = true) l) as Hff.
  { induction l as [|y ys IHy]; [done|].
    destruct (value_eqb (VStr a) y) eqn:Hy.
    - rewrite (filter_cons_False (λ x, value_eqb (VStr a) x = false)) by (by rewrite Hy).
      rewrite (filter_cons_False (λ v, Q' v = true)); [done|].
      unfold Q'. by rewrite Hy, andb_false_r.
    - rewrite (filter_cons_True (λ x, value_eqb (VStr a) x = false)) by done.
      destruct (Q y) eqn:HQ.
      + rewrite (filter_cons_True (λ v, Q v = true)) by done.
        rewrite (filter_cons_True (λ v, Q' v = true)); [by rewrite IHy|].
        unfold Q'. by rewrite HQ, Hy.
      + rewrite (filter_cons_False (λ v, Q v = true)) by (by rewrite HQ).
        rewrite (filter_cons_False (λ v, Q' v = true)); [done|].
        unfold Q'. by rewrite HQ. }
  assert (length (filter (λ x, Q x && occurs x (VStr a :: cs) = true) L)
          = ((if Q (VStr a) then count_of (VStr a) L else 0)
             + length (filter (λ x, Q' x && occurs x cs = true) L))%nat) as Hsplit.
  { clear IH Hff. induction L as [|x L IHL]; [by destruct (Q (VStr a))|].
    rewrite count_of_cons.
    destruct (value_eqb (VStr a) x) eqn:Hx.
    - rewrite (filter_cons_False (λ x, Q' x && occurs x cs = true));
        [|unfold Q'; by rewrite Hx, andb_false_r].
      assert (x = VStr a) as -> by (by apply value_eqb_str).
      destruct (Q (VStr a)) eqn:HQ.
      + rewrite filter_cons_True; [|cbn [occurs existsb]; by rewrite HQ, Hx].
        cbn [length]. rewrite IHL. lia.
      + rewrite filter_cons_False; [|by rewrite HQ]. rewrite IHL. lia.
    - destruct (Q x && occurs x cs) eqn:Hq.
      + rewrite (filter_cons_True (λ x, Q x && occurs x (VStr a :: cs) = true)).
        2:{ cbn [occurs existsb]. rewrite Hx. exact Hq. }
        rewrite (filter_cons_True (λ x, Q' x && occurs x cs = true)).
        2:{ unfold Q'. rewrite Hx. cbn [negb]. rewrite andb_true_r. exact Hq. }
        cbn [length]. rewrite IHL. destruct (Q (VStr a)); lia.
      + rewrite (filter_cons_False (λ x, Q x && occurs x (VStr a :: cs) = true)).
        2:{ cbn [occurs existsb]. rewrite Hx. cbn [orb]. fold (occurs x cs). by rewrite Hq. }
        rewrite (filter_cons_False (λ x, Q' x && occurs x cs = true)).
        2:{ unfold Q'. rewrite Hx. cbn [negb]. rewrite andb_true_r. by rewrite Hq. }
        rewrite IHL. destruct (Q (VStr a)); lia. }
  rewrite Hsplit. destruct (Q (VStr a)) eqn:HQ.
  - rewrite filter_cons_True by done. rewrite fmap_cons. cbn [sum_list].
    rewrite Hff. by rewrite <- (IH Q').
  - rewrite filter_cons_False by (by rewrite HQ).
    rewrite Hff. by rewrite <- (IH Q').
Qed.

Lemma insert_by_count_sum p l :
  sum_list (snd <$> insert_by_count p l) = (p.2 + sum_list (snd <$> l))%nat.
Proof.
  induction l as [|q l IH]; [done|].
  cbn [insert_by_count]. destruct (q.2 <=? p.2)%nat; [done|].
  rewrite !fmap_cons. cbn [sum_list]. rewrite IH. lia.
Qed.

Lemma sorted_counts_sum l :
  sum_list (snd <$> foldr insert_by_count [] l) = sum_list (snd <$> l).
Proof.
  induction l as [|p l IH]; [done|].
  cbn [foldr]. rewrite insert_by_count_sum, fmap_cons. cbn [sum_list]. by rewrite IH.
Qed.

Lemma sum_counts_of_nat (l : list (value * nat)) :
  sum_counts ((λ p, (p.1, VInt (Z.of_nat p.2))) <$> l) = Z.of_nat (sum_list (snd <$> l)).
Proof.
  induction l as [|p l IH]; [done|].
  unfold sum_counts in *. rewrite !fmap_cons. cbn [foldr snd sum_list].
  rewrite IH. unfold id. by rewrite Nat2Z.inj_add.
Qed.

Lemma filter_all {A} (P : A → Prop) `{∀ x, Decision (P x)} (l : list A) :
  Forall P l → filter P l = l.
Proof.
  induction 1 as [|x l Hx Hl IH]; [done|].
  by rewrite filter_cons_True, IH.
Qed.

Lemma occurs_self_str a cells : VStr a ∈ cells → occurs (VStr a) cells = true.
Proof.
  induction cells as [|c cells IH]; [by intros ?%elem_of_nil|].
  intros [<-|Hin]%elem_of_cons; cbn [occurs existsb].
  - cbn. by rewrite bool_decide_eq_true_2.
  - fold (occurs (VStr a) cells). by rewrite IH, orb_true_r.
Qed.

(** The counts of a column of strings add up to its length. *)
Lemma value_counts_total (labels : list pystr) :
  sum_counts (value_counts (VStr <$> labels)) = Z.of_nat (length labels).
Proof.
  unfold value_counts. cbv zeta.
  set (cells := VStr <$> labels).
  assert (Forall (λ v, ∃ s, v = VStr s) cells) as Hstr.
  { apply Forall_fmap, Forall_true. intros s. by exists s. }
  rewrite (filter_all (λ c, is_missing c = false) cells).
  2:{ eapply Forall_impl; [exact Hstr|]. by intros v [s ->]. }
  rewrite sum_counts_of_nat, sorted_counts_sum.
  rewrite <- list_fmap_compose.
  change (snd ∘ (λ v : value, (v, count_of v cells))) with (λ v : value, count_of v cells).
  pose proof (distinct_counts cells cells (λ _, true) Hstr) as Hsum.
  rewrite (filter_all (λ v : value, true = true)) in Hsum by (by apply Forall_true).
  rewrite Hsum. rewrite filter_all.
  - unfold cells. by rewrite length_fmap.
  - apply Forall_forall. intros x Hx.
    pose proof (proj1 (Forall_forall _ _) Hstr x Hx) as [a ->].
    cbn [andb]. by apply occurs_self_str.
Qed.

(** X19.  For a well-formed frame whose sentiment column holds strings
    (every frame that [add_sentiment] returns), the stats agree with each
    other: total_reviews is the number of rows, and the counts in
    sentiment_counts add up to it. *)
Theorem compute_basic_stats_counts_add_up
    (series_mean : list value → result Z) (df : DataFrame)
    (labels : list pystr) (stats : list (value * value)) :
  well_formed df = true →
  getitem (lit "sentiment") df = Ok (VStr <$> labels) →
  compute_basic_stats series_mean df = Ok stats →
  ∃ counts,
    dict_get stats (lit "total_reviews") VNone = VInt (Z.of_nat (nrows df))
    ∧ dict_get stats (lit "sentiment_counts") VNone = VDict counts
    ∧ sum_counts counts = Z.of_nat (nrows df).
Proof.
  intros Hwf Hget Hrun.
  pose proof (well_formed_column _ _ _ Hwf Hget) as Hlen. rewrite length_fmap in Hlen.
  unfold compute_basic_stats in Hrun. rewrite Hget in Hrun.
  destruct (if has_column (lit "rating") df then _ else _) as [avg|e]; [|done].
  cbn in Hrun. injection Hrun as <-.
  eexists. split; [reflexivity|]. split; [reflexivity|].
  by rewrite value_counts_total, Hlen.
Qed.

Lemma compute_basic_stats_counts_add_up_witness :
  let df := {| nrows := 3;
               columns := [ (lit "sentiment",
                             VStr <$> [lit "positive"; lit "neutral"; lit "positive"]) ] |} in
  ∃ counts,
    dict_get [ (VStr (lit "total_reviews"), VInt 3);
               (VStr (lit "avg_rating"), VNone);
               (VStr (lit "sentiment_counts"),
                VDict [ (VStr (lit "positive"), VInt 2); (VStr (lit "neutral"), VInt 1) ]) ]
      (lit "total_reviews") VNone = VInt (Z.of_nat (nrows df))
    ∧ dict_get [ (VStr (lit "total_reviews"), VInt 3);
                 (VStr (lit "avg_rating"), VNone);
                 (VStr (lit "sentiment_counts"),
                  VDict [ (VStr (lit "positive"), VInt 2); (VStr (lit "neutral"), VInt 1) ]) ]
        (lit "sentiment_counts") VNone = VDict counts
    ∧ sum_counts counts = Z.of_nat (nrows df).
Proof.
  intros df.
  apply (compute_basic_stats_counts_add_up sample_mean df
           [lit "positive"; lit "neutral"; lit "positive"]).
  - vm_compute. reflexivity.
  - vm_compute. reflexivity.
  - vm_compute. reflexivity.
Defined.

(** ** More on the fetcher *)

Lemma truthy_str s : truthy (VStr s) = negb (bool_decide (s = [])).
Proof. reflexivity. Qed.

(** X20.  The key that counts is the [api_key] argument when it is not
    [None], else the configured key.  When that key is empty (an explicit
    empty argument does not fall back to the configured key) the call
    raises the configuration error and sends nothing; otherwise it sends
    exactly one request, to the fixed endpoint, with that key. *)
Theorem fetch_sends_at_most_one
    (infer_dtype : list value → list value)
    (configured : pystr) (http_get : request → result response)
    (place_id : pystr) (api_key : option pystr) (hl : pystr) (sent : list request) :
  let key := match api_key with None => configured | Some k => k end in
  let out := fetch_google_maps_reviews infer_dtype configured http_get place_id api_key hl sent in
  (key = [] →
   out = (Raise (ValueError
                   (lit "SERPAPI_API_KEY is not set. Please configure it in .env or config.py")),
          sent))
  ∧ (key ≠ [] →
     out.2 = sent ++ [ {| url := lit "https://serpapi.com/search.json";
                          params := [ (lit "engine", lit "google_maps_reviews");
                                      (lit "place_id", place_id);
                                      (lit "hl", hl);
                                      (lit "api_key", key) ] |} ]).
Proof.
  intros key out. unfold out, fetch_google_maps_reviews. fold key.
  rewrite truthy_str. split; intros Hkey.
  - by rewrite bool_decide_eq_true_2.
  - by rewrite bool_decide_eq_false_2.
Qed.

Lemma fetch_sends_at_most_one_witness :
  fetch_google_maps_reviews sample_infer (lit "configured-key") (sample_http (VDict []))
    (lit "place") (Some []) DEFAULT_HL []
  = (Raise (ValueError
              (lit "SERPAPI_API_KEY is not set. Please configure it in .env or config.py")),
     [])
  ∧ (fetch_google_maps_reviews sample_infer (lit "configured-key") (sample_http (VDict []))
       (lit "place") None DEFAULT_HL []).2
    = [ {| url := lit "https://serpapi.com/search.json";
           params := [ (lit "engine", lit "google_maps_reviews");
                       (lit "place_id", lit "place");
                       (lit "hl", lit "en");
                       (lit "api_key", lit "configured-key") ] |} ].
Proof.
  split.
  - apply (proj1 (fetch_sends_at_most_one sample_infer (lit "configured-key")
                    (sample_http (VDict []))
                    (lit "place") (Some []) DEFAULT_HL [])).
    reflexivity.
  - apply (proj2 (fetch_sends_at_most_one sample_infer (lit "configured-key")
                    (sample_http (VDict []))
                    (lit "place") None DEFAULT_HL [])).
    vm_compute. discriminate.
Defined.

(** X21.  A response with a status from 400 to 599 makes the call raise
    [HTTPError] for that status, whatever its body is; the body is not
    read. *)
Theorem fetch_http_error
    (infer_dtype : list value → list value)
    (configured : pystr) (http_get : request → result response)
    (place_id : pystr) (api_key : option pystr) (hl : pystr) (sent : list request)
    (r : response) :
  let key := match api_key with None => configured | Some k => k end in
  key ≠ [] →
  http_get {| url := SERPAPI_ENDPOINT;
              params := [ (lit "engine", lit "google_maps_reviews");
                          (lit "place_id", place_id);
                          (lit "hl", hl);
                          (lit "api_key", key) ] |} = Ok r →
  (400 ≤ status_code r < 600)%Z →
  (fetch_google_maps_reviews infer_dtype configured http_get place_id api_key hl sent).1
  = Raise (HTTPError (status_code r)).
Proof.
  intros key Hkey Hget [Hlo Hhi].
  unfold fetch_google_maps_reviews. fold key. rewrite truthy_str.
  rewrite bool_decide_eq_false_2 by done. cbn [negb fst].
  rewrite Hget. cbn [mbind result_bind]. unfold raise_for_status.
  by rewrite (proj2 (Z.leb_le _ _) Hlo), (proj2 (Z.ltb_lt _ _) Hhi).
Qed.

Lemma fetch_http_error_witness :
  (fetch_google_maps_reviews sample_infer []
     (λ _, Ok {| status_code := 401; json := Ok (VDict [(VStr (lit "reviews"), VList [])]) |})
     (lit "place") (Some (lit "bad-key")) DEFAULT_HL []).1
  = Raise (HTTPError 401).
Proof.
  apply (fetch_http_error sample_infer []
           (λ _, Ok {| status_code := 401;
                       json := Ok (VDict [(VStr (lit "reviews"), VList [])]) |})
           (lit "place") (Some (lit "bad-key")) DEFAULT_HL []
           {| status_code := 401; json := Ok (VDict [(VStr (lit "reviews"), VList [])]) |}).
  - vm_compute. discriminate.
  - reflexivity.
  - cbn. lia.
Defined.

Lemma for_each_ok {A B C} (f : A → result B) (h : C → A) (g : C → B) (xs : list C) :
  (∀ x, f (h x) = Ok (g x)) → for_each f (h <$> xs) = Ok (g <$> xs).
Proof.
  intros Hf. induction xs as [|x xs IH]; [done|].
  rewrite !fmap_cons. cbn [for_each]. rewrite Hf. cbn [mbind result_bind]. by rewrite IH.
Qed.

Lemma review_row_dict (rev : list (value * value)) :
  review_row (VDict rev)
  = Ok [ (VStr (lit "author"), dict_get rev (lit "user") (VStr []));
         (VStr (lit "rating"), dict_get rev (lit "rating") VNone);
         (VStr (lit "date"), dict_get rev (lit "date") (VStr []));
         (VStr (lit "text"),
          if truthy (dict_get rev (lit "snippet") (VStr []))
          then dict_get rev (lit "snippet") (VStr [])
          else dict_get rev (lit "review") (VStr [])) ].
Proof.
  unfold review_row. cbn [get mbind result_bind].
  by destruct (truthy (dict_get rev (lit "snippet") (VStr []))).
Qed.

(** X22.  When the "reviews" field is a non-empty list of objects, the
    call returns one row per review, in the order of the list, with the
    four columns as [pd.DataFrame] stores them under the dtype it infers:
    author from the "user" entries (default ""), rating from the "rating"
    entries (default None), date from the "date" entries (default ""),
    and text from the "snippet" entry where it is truthy, else the
    "review" entry (default ""). *)
Theorem fetch_rows
    (infer_dtype : list value → list value)
    (configured : pystr) (http_get : request → result response)
    (place_id : pystr) (api_key : option pystr) (hl : pystr) (sent : list request)
    (r : response) (entries : list (value * value)) (reviews : list (list (value * value))) :
  let key := match api_key with None => configured | Some k => k end in
  key ≠ [] →
  http_get {| url := SERPAPI_ENDPOINT;
              params := [ (lit "engine", lit "google_maps_reviews");
                          (lit "place_id", place_id);
                          (lit "hl", hl);
                          (lit "api_key", key) ] |} = Ok r →
  raise_for_status r = Ok () →
  json r = Ok (VDict entries) →
  dict_get entries (lit "reviews") (VList []) = VList (VDict <$> reviews) →
  reviews ≠ [] →
  (fetch_google_maps_reviews infer_dtype configured http_get place_id api_key hl sent).1
  = Ok {| nrows := length reviews;
          columns :=
            [ (lit "author",
               infer_dtype ((λ rev, dict_get rev (lit "user") (VStr [])) <$> reviews));
              (lit "rating",
               infer_dtype ((λ rev, dict_get rev (lit "rating") VNone) <$> reviews));
              (lit "date",
               infer_dtype ((λ rev, dict_get rev (lit "date") (VStr [])) <$> reviews));
              (lit "text",
               infer_dtype
                 ((λ rev, if truthy (dict_get rev (lit "snippet") (VStr []))
                          then dict_get rev (lit "snippet") (VStr [])
                          else dict_get rev (lit "review") (VStr [])) <$> reviews)) ] |}.
Proof.
  intros key Hkey Hget Hstatus Hjson Hreviews Hne.
  unfold fetch_google_maps_reviews. fold key. rewrite truthy_str.
  rewrite bool_decide_eq_false_2 by done. cbn [negb fst].
  rewrite Hget. cbn [mbind result_bind].
  rewrite Hstatus. cbn [mbind result_bind].
  rewrite Hjson. cbn [mbind result_bind get]. rewrite Hreviews.
  assert (truthy (VList (VDict <$> reviews)) = true) as ->.
  { cbn [truthy]. rewrite length_fmap. destruct reviews; [done|]. reflexivity. }
  cbn [negb iterate mbind result_bind].
  rewrite (for_each_ok review_row VDict _ reviews review_row_dict).
  cbn [mbind result_bind]. f_equal.
  unfold of_rows, review_columns. rewrite length_fmap. f_equal.
  cbn [fmap list_fmap]. rewrite <- !list_fmap_compose.
  repeat (f_equal; [f_equal; f_equal; by apply list_fmap_ext|]). done.
Qed.

Lemma fetch_rows_witness :
  (fetch_google_maps_reviews sample_infer []
     (sample_http
        (VDict [ (VStr (lit "reviews"),
                  VList (VDict <$>
                    [ [ (VStr (lit "user"), VStr (lit "Ann"));
                        (VStr (lit "rating"), VInt 5);
                        (VStr (lit "snippet"), VStr (lit "Great")) ];
                      [ (VStr (lit "snippet"), VStr []);
                        (VStr (lit "review"), VStr (lit "Bad")) ] ])) ]))
     (lit "place") (Some (lit "key")) DEFAULT_HL []).1
  = Ok {| nrows := 2;
          columns := [ (lit "author", [VStr (lit "Ann"); VStr []]);
                       (lit "rating", [VFloat 0x4014000000000000; nan]);
                       (lit "date", [VStr []; VStr []]);
                       (lit "text", [VStr (lit "Great"); VStr (lit "Bad")]) ] |}.
Proof.
  apply (fetch_rows sample_infer [] _ (lit "place") (Some (lit "key")) DEFAULT_HL []
           {| status_code := 200;
              json := Ok (VDict [ (VStr (lit "reviews"),
                  VList (VDict <$>
                    [ [ (VStr (lit "user"), VStr (lit "Ann"));
                        (VStr (lit "rating"), VInt 5);
                        (VStr (lit "snippet"), VStr (lit "Great")) ];
                      [ (VStr (lit "snippet"), VStr []);
                        (VStr (lit "review"), VStr (lit "Bad")) ] ])) ]) |}
           [ (VStr (lit "reviews"),
              VList (VDict <$>
                [ [ (VStr (lit "user"), VStr (lit "Ann"));
                    (VStr (lit "rating"), VInt 5);
                    (VStr (lit "snippet"), VStr (lit "Great")) ];
                  [ (VStr (lit "snippet"), VStr []);
                    (VStr (lit "review"), VStr (lit "Bad")) ] ])) ]
           [ [ (VStr (lit "user"), VStr (lit "Ann"));
               (VStr (lit "rating"), VInt 5);
               (VStr (lit "snippet"), VStr (lit "Great")) ];
             [ (VStr (lit "snippet"), VStr []);
               (VStr (lit "review"), VStr (lit "Bad")) ] ]).
  - vm_compute. discriminate.
  - reflexivity.
  - reflexivity.
  - reflexivity.
  - reflexivity.
  - discriminate.
Defined.

(** ** The session and the handlers *)

Lemma clear_keys_lookup (keys : list (list N)) (st : gmap (list N) slot) (k : list N) :
  foldl (λ st key, <[key := Unset]> st) st keys !! k
  = if bool_decide (k ∈ keys) then Some Unset else st !! k.
Proof.
  revert st. induction keys as [|key keys IH]; intros st; [done|].
  cbn [foldl]. rewrite IH.
  destruct (decide (k ∈ keys)) as [Hin|Hin].
  - rewrite !bool_decide_eq_true_2; [done|by right|done].
  - rewrite (bool_decide_eq_false_2 (k ∈ keys)) by done.
    destruct (decide (key = k)) as [->|Hne].
    + rewrite lookup_insert_eq. rewrite bool_decide_eq_true_2; [done|by left].
    + rewrite lookup_insert_ne by done. rewrite bool_decide_eq_false_2; [done|].
      by intros [?|?]%elem_of_cons.
Qed.

Lemma ensure_keys_lookup (keys : list (list N)) (st : gmap (list N) slot) (k : list N) :
  foldl (λ st k, match st !! k with Some _ => st | None => <[k := Unset]> st end) st keys !! k
  = match st !! k with
    | Some v => Some v
    | None => if bool_decide (k ∈ keys) then Some Unset else None
    end.
Proof.
  revert st. induction keys as [|key keys IH]; intros st.
  { cbn. by destruct (st !! k). }
  cbn [foldl]. rewrite IH. destruct (st !! key) eqn:Hkey.
  - destruct (st !! k) eqn:Hk; [done|].
    destruct (decide (key = k)) as [->|Hne]; [congruence|].
    destruct (decide (k ∈ keys)) as [Hin|Hin].
    + rewrite !bool_decide_eq_true_2; [done|by right|done].
    + rewrite !bool_decide_eq_false_2; [done| |done]. by intros [?|?]%elem_of_cons.
  - destruct (decide (key = k)) as [->|Hne].
    + rewrite lookup_insert_eq, Hkey. rewrite bool_decide_eq_true_2; [done|by left].
    + rewrite lookup_insert_ne by done. destruct (st !! k); [done|].
      destruct (decide (k ∈ keys)) as [Hin|Hin].
      * rewrite !bool_decide_eq_true_2; [done|by right|done].
      * rewrite !bool_decide_eq_false_2; [done| |done]. by intros [?|?]%elem_of_cons.
Qed.

(** X23.  After the session initialisation every key of [SESSION_KEYS]
    is present; a slot that was already set keeps its value, a key outside
    the list is not added, and running the initialisation again changes
    nothing. *)
Theorem init_session_sets_missing_keys (st : gmap (list N) slot) :
  (∀ k, k ∈ SESSION_KEYS → is_Some (init_session st !! k))
  ∧ (∀ k v, st !! k = Some v → init_session st !! k = Some v)
  ∧ (∀ k, st !! k = None → k ∈ SESSION_KEYS → init_session st !! k = Some Unset)
  ∧ (∀ k, st !! k = None → k ∉ SESSION_KEYS → init_session st !! k = None)
  ∧ init_session (init_session st) = init_session st.
Proof.
  unfold init_session. split; [|split; [|split; [|split]]].
  - intros k Hk. rewrite ensure_keys_lookup. destruct (st !! k); [done|].
    by rewrite bool_decide_eq_true_2.
  - intros k v Hk. by rewrite ensure_keys_lookup, Hk.
  - intros k Hk Hin. rewrite ensure_keys_lookup, Hk. by rewrite bool_decide_eq_true_2.
  - intros k Hk Hin. rewrite ensure_keys_lookup, Hk. by rewrite bool_decide_eq_false_2.
  - apply map_eq. intros k. rewrite (ensure_keys_lookup _ (foldl _ st SESSION_KEYS)).
    rewrite ensure_keys_lookup. destruct (st !! k); [done|].
    by destruct (bool_decide (k ∈ SESSION_KEYS)).
Qed.

Lemma init_session_sets_missing_keys_witness :
  init_session {[ key "themes" := Plain (VDict []) ]} !! key "themes" = Some (Plain (VDict []))
  ∧ init_session {[ key "themes" := Plain (VDict []) ]} !! key "compared" = Some Unset
  ∧ init_session {[ key "themes" := Plain (VDict []) ]} !! key "other" = None.
Proof.
  destruct (init_session_sets_missing_keys {[ key "themes" := Plain (VDict []) ]})
    as (_ & Hkeep & Hnew & Hout & _).
  split; [|split].
  - apply Hkeep. vm_compute. reflexivity.
  - apply Hnew; [vm_compute; reflexivity|].
    apply (proj1 (bool_decide_eq_true _)). vm_compute. reflexivity.
  - apply Hout; [vm_compute; reflexivity|].
    apply (proj1 (bool_decide_eq_false _)). vm_compute. reflexivity.
Defined.

(** X24.  [reset_single] sets its five slots to [None] and leaves every
    other slot as it is (the competitor slots and csv_uploaded_once
    among them); [reset_competitor] does the same for its eleven slots;
    the two resets commute. *)
Theorem resets_clear_their_slots (st : gmap (list N) slot) (k : list N) :
  reset_single st !! k
  = (if bool_decide (k ∈ [key "df_raw"; key "df_analyzed"; key "themes"; key "summary";
                          key "recs"])
     then Some Unset else st !! k)
  ∧ reset_competitor st !! k
    = (if bool_decide (k ∈ [key "df_A_raw"; key "df_B_raw"; key "A_processed";
                            key "B_processed"; key "A_themes"; key "B_themes";
                            key "A_summary"; key "B_summary"; key "A_recs"; key "B_recs";
                            key "compared"])
       then Some Unset else st !! k)
  ∧ reset_single (reset_competitor st) = reset_competitor (reset_single st).
Proof.
  unfold reset_single, reset_competitor.
  split; [apply clear_keys_lookup|]. split; [apply clear_keys_lookup|].
  apply map_eq. intros j. rewrite !clear_keys_lookup.
  destruct (bool_decide (j ∈ single_keys)), (bool_decide (j ∈ competitor_keys)); done.
Qed.

(** X25.  The "Fetch Reviews" handler keeps the session as it is when the
    place id is empty (nothing is sent then), when the fetch raises and
    when it returns an empty collection; only a non-empty collection
    replaces the raw reviews, and then the analysis, themes, summary,
    recommendations and the CSV flag are cleared while every other slot
    is kept.  Each run shows exactly one notice. *)
Theorem on_fetch_reviews_session
    (infer_dtype : list value → list value)
    (configured : pystr) (http_get : request → result response) (str_of_exn : exn → pystr)
    (place_id serpapi_key : pystr) (w : world) :
  let w' :=
    on_fetch_reviews infer_dtype configured http_get str_of_exn place_id serpapi_key w in
  let outcome :=
    (fetch_google_maps_reviews infer_dtype configured http_get place_id (or_none serpapi_key)
       DEFAULT_HL (sent w)).1 in
  (place_id = [] → state w' = state w ∧ sent w' = sent w)
  ∧ ((∃ e, outcome = Raise e) ∨ (∃ df, outcome = Ok df ∧ frame_empty df = true)
     → state w' = state w)
  ∧ (∀ df, place_id ≠ [] → outcome = Ok df → frame_empty df = false →
       state w' !! key "df_raw" = Some (Frame df)
       ∧ (∀ k, k ∈ [key "df_analyzed"; key "themes"; key "summary"; key "recs";
                    key "csv_uploaded_once"] → state w' !! k = Some Unset)
       ∧ (∀ k, k ∉ single_keys → k ≠ key "csv_uploaded_once" → state w' !! k = state w !! k))
  ∧ length (notices w') = S (length (notices w)).
Proof.
  intros w' outcome. unfold w', outcome, on_fetch_reviews. rewrite truthy_str.
  destruct (decide (place_id = [])) as [->|Hplace].
  { cbn. rewrite length_app. cbn. repeat split; try done; try lia. }
  rewrite (bool_decide_eq_false_2 (place_id = [])) by done. cbn [negb].
  destruct (fetch_google_maps_reviews _ _ _ _ _ _ _) as [o sent'] eqn:Hfetch. cbn [fst].
  split; [done|]. split; [|split].
  - intros [[e ->]|(df & -> & Hempty)]; [done|]. by rewrite Hempty.
  - intros df _ -> Hempty. rewrite Hempty. cbn [state].
    split; [|split].
    + rewrite lookup_insert_ne by (by vm_compute). apply lookup_insert_eq.
    + intros k Hk.
      destruct (decide (k = key "csv_uploaded_once")) as [->|Hcsv]; [apply lookup_insert_eq|].
      rewrite lookup_insert_ne by done.
      assert (k ≠ key "df_raw") as Hraw.
      { intros ->. apply (proj2 (bool_decide_eq_true _)) in Hk. by vm_compute in Hk. }
      rewrite lookup_insert_ne by done.
      unfold reset_single. rewrite clear_keys_lookup.
      rewrite bool_decide_eq_true_2; [done|].
      unfold single_keys. rewrite !elem_of_cons in Hk. rewrite !elem_of_cons.
      destruct Hk as [?|[?|[?|[?|[?|?%elem_of_nil]]]]]; try done; auto 10.
    + intros k Hk Hcsv.
      rewrite lookup_insert_ne by done.
      rewrite lookup_insert_ne.
      2:{ intros <-. apply Hk. apply (proj1 (bool_decide_eq_true _)). by vm_compute. }
      unfold reset_single. rewrite clear_keys_lookup.
      by rewrite bool_decide_eq_false_2.
  - destruct o as [df|e]; [destruct (frame_empty df)|]; cbn [notices];
      rewrite length_app; cbn; lia.
Qed.

Lemma on_fetch_reviews_session_witness :
  let w := {| state := {[ key "themes" := Plain (VDict []) ]}; sent := []; notices := [] |} in
  state (on_fetch_reviews sample_infer (lit "cfg") (sample_http (VDict [])) (λ _, lit "?")
           (lit "place") [] w) = state w
  ∧ state (on_fetch_reviews sample_infer (lit "cfg") (sample_http (VDict [])) (λ _, lit "?")
             [] [] w)
    = state w.
Proof.
  intros w.
  destruct (on_fetch_reviews_session sample_infer (lit "cfg") (sample_http (VDict []))
              (λ _, lit "?")
              (lit "place") [] w) as (_ & Hkeep & _).
  destruct (on_fetch_reviews_session sample_infer (lit "cfg") (sample_http (VDict []))
              (λ _, lit "?")
              [] [] w) as (Hnone & _).
  split.
  - apply Hkeep. right. eexists. split; vm_compute; reflexivity.
  - by apply Hnone.
Defined.

(** X26.  The "Fetch Both" handler, once both place ids are given, clears
    the competitor slots before it fetches, so the earlier comparison is
    gone even when a fetch fails, and it leaves the other slots alone.
    When the fetch for business A raises, the exception leaves the
    handler, both raw slots stay [None] and nothing is sent for B. *)
Theorem on_fetch_both_session
    (infer_dtype : list value → list value)
    (configured : pystr) (http_get : request → result response)
    (place_A place_B serpapi_key : pystr) (w : world) :
  place_A ≠ [] → place_B ≠ [] →
  let res := on_fetch_both infer_dtype configured http_get place_A place_B serpapi_key w in
  let fetch_A :=
    fetch_google_maps_reviews infer_dtype configured http_get place_A (or_none serpapi_key)
      DEFAULT_HL (sent w) in
  (∀ k, k ∈ competitor_keys → k ≠ key "df_A_raw" → k ≠ key "df_B_raw"
        → state res.2 !! k = Some Unset)
  ∧ (∀ k, k ∉ competitor_keys → state res.2 !! k = state w !! k)
  ∧ (∀ e, fetch_A.1 = Raise e →
       res.1 = Some e
       ∧ state res.2 !! key "df_A_raw" = Some Unset
       ∧ state res.2 !! key "df_B_raw" = Some Unset
       ∧ sent res.2 = fetch_A.2).
Proof.
  intros HA HB res fetch_A. unfold res, fetch_A, on_fetch_both. rewrite !truthy_str.
  rewrite !bool_decide_eq_false_2 by done. cbn [negb orb].
  assert (key "df_A_raw" ∈ competitor_keys) as HinA
    by (apply (proj1 (bool_decide_eq_true _)); by vm_compute).
  assert (key "df_B_raw" ∈ competitor_keys) as HinB
    by (apply (proj1 (bool_decide_eq_true _)); by vm_compute).
  destruct (fetch_google_maps_reviews _ _ _ place_A _ _ _) as [oA sA]. cbn [fst snd].
  destruct oA as [dfA|eA].
  - destruct (fetch_google_maps_reviews _ _ _ place_B _ _ _) as [oB sB].
    split; [|split; [|done]].
    + intros k Hk H1 H2. destruct oB; cbn [snd state];
        rewrite ?lookup_insert_ne by done;
        unfold reset_competitor; rewrite clear_keys_lookup; by rewrite bool_decide_eq_true_2.
    + intros k Hk. assert (k ≠ key "df_A_raw") by (by intros ->).
      assert (k ≠ key "df_B_raw") by (by intros ->).
      destruct oB; cbn [snd state]; rewrite ?lookup_insert_ne by done;
        unfold reset_competitor; rewrite clear_keys_lookup; by rewrite bool_decide_eq_false_2.
  - cbn [snd state fst]. unfold reset_competitor.
    split; [|split].
    + intros k Hk _ _. rewrite clear_keys_lookup. by rewrite bool_decide_eq_true_2.
    + intros k Hk. rewrite clear_keys_lookup. by rewrite bool_decide_eq_false_2.
    + intros e [= <-]. rewrite !clear_keys_lookup.
      by rewrite !bool_decide_eq_true_2.
Qed.

Lemma on_fetch_both_session_witness :
  let w := {| state := {[ key "compared" := Plain (VBool true) ]};
              sent := []; notices := [] |} in
  let res := on_fetch_both sample_infer [] (sample_http (VDict [])) (lit "A") (lit "B") [] w in
  res.1 = Some (ValueError
                  (lit "SERPAPI_API_KEY is not set. Please configure it in .env or config.py"))
  ∧ state res.2 !! key "df_A_raw" = Some Unset
  ∧ state res.2 !! key "df_B_raw" = Some Unset
  ∧ sent res.2 = [].
Proof.
  intros w res.
  destruct (on_fetch_both_session sample_infer [] (sample_http (VDict []))
              (lit "A") (lit "B") [] w)
    as (_ & _ & Hraise); [by vm_compute|by vm_compute|].
  apply Hraise. reflexivity.
Defined.

(** X27.  The actionability rating falls back to the pair "N/A" /
    "Failed" whenever the LLM call or the decoding of its answer raises.
    An answer that decodes to a dict with both keys shows their values;
    the subscripts are outside the [try], so a dict without "score" raises
    [KeyError] and an answer that is not a dict raises [TypeError]. *)
Theorem score_recommendations_outcomes
    (chat : chat_request → result value) (model : pystr)
    (json_loads : pystr → result value) (recs : pystr) :
  let answer :=
    raw ← _call_llm chat model (scoring_prompt recs) default_temperature; json_loads raw in
  let shown := score_recommendations chat model json_loads recs in
  ((∃ e, answer = Raise e) → shown = Ok (VStr (lit "N/A"), VStr (lit "Failed")))
  ∧ (∀ d, answer = Ok (VDict d) →
          has_key d (lit "score") = true → has_key d (lit "reason") = true →
          shown = Ok (dict_get d (lit "score") VNone, dict_get d (lit "reason") VNone))
  ∧ (∀ d, answer = Ok (VDict d) → has_key d (lit "score") = false →
          shown = Raise (KeyError (lit "score")))
  ∧ (∀ v, answer = Ok v → (∀ d, v ≠ VDict d) → shown = Raise TypeError).
Proof.
  intros answer shown. unfold shown, score_recommendations. fold answer. cbv zeta.
  split; [|split; [|split]].
  - intros [e ->]. reflexivity.
  - intros d -> Hs Hr. unfold subscript. by rewrite Hs, Hr.
  - intros d -> Hs. unfold subscript. by rewrite Hs.
  - intros v -> Hv. destruct v; try done. by destruct (Hv entries).
Qed.

Lemma score_recommendations_outcomes_witness :
  score_recommendations (sample_chat (VStr (lit "I would say 7."))) (lit "gpt-4.1-mini")
    sample_json_loads (lit "- Add staff") = Ok (VStr (lit "N/A"), VStr (lit "Failed"))
  ∧ score_recommendations (sample_chat (VStr (lit "{}"))) (lit "gpt-4.1-mini")
      sample_json_loads (lit "- Add staff") = Raise (KeyError (lit "score"))
  ∧ score_recommendations (sample_chat (VStr (lit "[]"))) (lit "gpt-4.1-mini")
      sample_json_loads (lit "- Add staff") = Raise TypeError.
Proof.
  split; [|split].
  - apply (score_recommendations_outcomes (sample_chat (VStr (lit "I would say 7.")))
             (lit "gpt-4.1-mini") sample_json_loads (lit "- Add staff")).
    eexists. vm_compute. reflexivity.
  - apply (score_recommendations_outcomes (sample_chat (VStr (lit "{}")))
             (lit "gpt-4.1-mini") sample_json_loads (lit "- Add staff")) with (d := []).
    + vm_compute. reflexivity.
    + reflexivity.
  - apply (score_recommendations_outcomes (sample_chat (VStr (lit "[]")))
             (lit "gpt-4.1-mini") sample_json_loads (lit "- Add staff")) with (v := VList []).
    + vm_compute. reflexivity.
    + intros d. discriminate.
Defined.
